(** * EC2 cost optimiser: the scheduled stop policy of [Lambda/lambda_function.py]

    A shallow embedding of the Lambda handler: the Python values it
    manipulates, the calls it makes to AWS, and the decision it takes for
    each instance, followed by the properties of the policy.

    Conventions. The boto3 clients and the five settings read from the
    environment at import time are a [Config] and a [World]. The handler
    does not read [event] or [context], so they are left out. A computation
    logs every request that leaves the process; [pytz.timezone(TIMEZONE)]
    followed by [datetime.now(tz)] is one request, and the two [utcnow()]
    reads of [get_cpu_utilization] are the 30-minute window of its request.
    Line numbers are those of [lambda_function.py]. *)

From Stdlib Require Import ZArith List Bool String Ascii Lia QArith Permutation Sorted.
From Stdlib Require Import Floats.
Import ListNotations.

Local Open Scope string_scope.
Local Open Scope Z_scope.

Set Warnings "-inexact-float".

(** ** Python numbers *)

(** The numbers the handler meets: [int] (the threshold, the hour) and
    [float], an IEEE 754 binary64 (the [Average] of a datapoint). *)
Inductive pynum : Type :=
| PyInt (n : Z)
| PyFloat (x : float).

(** The value of a number on the extended rational line. Python compares
    [int] with [int], [float] with [float] and [int] with [float] by their
    exact mathematical values; a NaN is unordered. *)
Inductive extended : Type :=
| NaN
| NegInf
| Finite (q : Q)
| PosInf.

Definition sf_value (f : spec_float) : extended :=
  match f with
  | S754_nan => NaN
  | S754_infinity true => NegInf
  | S754_infinity false => PosInf
  | S754_zero _ => Finite 0
  | S754_finite s m e =>
      Finite (inject_Z (if s then Z.neg m else Z.pos m) * Qpower 2 e)
  end.

Definition py_value (a : pynum) : extended :=
  match a with
  | PyInt n => Finite (inject_Z n)
  | PyFloat x => sf_value (Prim2SF x)
  end.

Definition Qltb (p q : Q) : bool := negb (Qle_bool q p).

Definition ext_lt (a b : extended) : bool :=
  match a, b with
  | NaN, _ | _, NaN => false
  | NegInf, NegInf => false
  | NegInf, _ => true
  | _, NegInf => false
  | PosInf, _ => false
  | Finite _, PosInf => true
  | Finite p, Finite q => Qltb p q
  end.

(** Python's [a < b] on numbers. *)
Definition py_lt (a b : pynum) : bool := ext_lt (py_value a) (py_value b).

(** Python's [a == b] on numbers, used to state that the comparison with
    the threshold is strict. *)
Definition py_eq (a b : pynum) : bool :=
  match py_value a, py_value b with
  | Finite p, Finite q => Qeq_bool p q
  | NegInf, NegInf | PosInf, PosInf => true
  | _, _ => false
  end.

(** ** Formatting numbers: [format(x, "")], as an f-string field does *)

Fixpoint string_of_digits (ds : list Z) : string :=
  match ds with
  | [] => ""
  | d :: ds' => String (ascii_of_nat (48 + Z.to_nat d)) (string_of_digits ds')
  end.

Fixpoint zeros (n : nat) : list Z :=
  match n with
  | O => []
  | S n' => 0 :: zeros n'
  end.

(** The decimal digits of a natural number, most significant first. *)
Fixpoint digits_of_pos (fuel : nat) (n : Z) (acc : list Z) : list Z :=
  match fuel with
  | O => acc
  | S fuel' =>
      if n <? 10 then n :: acc
      else digits_of_pos fuel' (n / 10) (n mod 10 :: acc)
  end.

Definition digits_of_nat (n : Z) : list Z :=
  digits_of_pos (S (Z.to_nat (Z.log2 n))) n [].

(** [str] of an [int]. *)
Definition int_str (n : Z) : string :=
  if n <? 0 then "-" ++ string_of_digits (digits_of_nat (- n))
  else string_of_digits (digits_of_nat n).

(** Shortest digits of a positive binary float [m * 2^e] that read back to
    the same float under round-half-even: the free-format digit generation
    on exact integers. [r / s] is the value, [mp / s] and [mm / s] are the
    half-gaps to the next and the previous float. When the last digit can go
    either way the nearer one is taken, and the even one on a tie. *)
Section ShortestDigits.

Variables (low_ok high_ok : bool).

(** The least [k] from a lower estimate on with [high < 10^k] ([<=] when
    the upper bound itself does not round to the float). *)
Fixpoint find_decpt (fuel : nat) (k : Z) (hi s : Z) : Z :=
  match fuel with
  | O => k
  | S fuel' =>
      let below :=
        if 0 <=? k then
          if high_ok then hi <? s * 10 ^ k else hi <=? s * 10 ^ k
        else
          if high_ok then hi * 10 ^ (- k) <? s else hi * 10 ^ (- k) <=? s in
      if below then k else find_decpt fuel' (k + 1) hi s
  end.

Fixpoint generate (fuel : nat) (r s mp mm : Z) : list Z :=
  match fuel with
  | O => []
  | S fuel' =>
      let r10 := r * 10 in
      let mp := mp * 10 in
      let mm := mm * 10 in
      let d := r10 / s in
      let r := r10 mod s in
      let tc1 := if low_ok then r <=? mm else r <? mm in
      let tc2 := if high_ok then s <=? r + mp else s <? r + mp in
      match tc1, tc2 with
      | false, false => d :: generate fuel' r s mp mm
      | false, true => [d + 1]
      | true, false => [d]
      | true, true =>
          if r * 2 <? s then [d]
          else if (r * 2 =? s) && Z.even d then [d]
          else [d + 1]
      end
  end.

End ShortestDigits.

(** Digits and decimal point position of [m * 2^e]: the value is
    [0.d1 d2 ... dn * 10^decpt]. *)
Definition shortest_digits (m : positive) (e : Z) : list Z * Z :=
  let f := Z.pos m in
  let even := Z.even f in
  let uneven := (f =? 2 ^ 52) && negb (e =? -1074) in
  let '(r, s, mp, mm) :=
    if 0 <=? e then
      if uneven then (f * 2 ^ (e + 1) * 2, 4, 2 ^ (e + 1), 2 ^ e)
      else (f * 2 ^ e * 2, 2, 2 ^ e, 2 ^ e)
    else
      if uneven then (f * 4, 2 ^ (1 - e) * 2, 2, 1)
      else (f * 2, 2 ^ (- e) * 2, 1, 1) in
  let hi := r + mp in
  let k0 := (Z.log2 hi - Z.log2 s - 1) * 30103 / 100000 - 1 in
  let k := find_decpt even 8 k0 hi s in
  let '(r, s, mp, mm) :=
    if 0 <=? k then (r, s * 10 ^ k, mp, mm)
    else (r * 10 ^ (- k), s, mp * 10 ^ (- k), mm * 10 ^ (- k)) in
  (generate even even (Z.to_nat (Z.log2 s + 2)) r s mp mm, k).

(** [repr] of a finite non-zero [float] from its digits: exponent notation
    when the decimal point falls outside [(-4, 16]], and a trailing [.0]
    when the digits have no fractional part. *)
Definition repr_of_digits (ds : list Z) (decpt : Z) : string :=
  if (decpt <=? -4) || (16 <? decpt) then
    let ex := decpt - 1 in
    let mant :=
      match ds with
      | [] => ""
      | [d] => string_of_digits [d]
      | d :: ds' => string_of_digits [d] ++ "." ++ string_of_digits ds'
      end in
    let exd := digits_of_nat (Z.abs ex) in
    let exd := match exd with [d] => [0; d] | _ => exd end in
    mant ++ "e" ++ (if ex <? 0 then "-" else "+") ++ string_of_digits exd
  else if decpt <=? 0 then
    "0." ++ string_of_digits (app (zeros (Z.to_nat (- decpt))) ds)
  else
    let n := Z.of_nat (List.length ds) in
    if n <=? decpt then
      string_of_digits (app ds (zeros (Z.to_nat (decpt - n)))) ++ ".0"
    else
      string_of_digits (firstn (Z.to_nat decpt) ds) ++ "." ++
      string_of_digits (skipn (Z.to_nat decpt) ds).

(** [repr] of a [float]. *)
Definition float_repr (f : spec_float) : string :=
  match f with
  | S754_nan => "nan"
  | S754_infinity s => if s then "-inf" else "inf"
  | S754_zero s => if s then "-0.0" else "0.0"
  | S754_finite s m e =>
      let '(ds, decpt) := shortest_digits m e in
      (if s then "-" else "") ++ repr_of_digits ds decpt
  end.

(** [f"{a}"]: an empty format specification gives [str(a)]. *)
Definition py_str (a : pynum) : string :=
  match a with
  | PyInt n => int_str n
  | PyFloat x => float_repr (Prim2SF x)
  end.

(** ** The stop policy (lines 53-57 of [lambda_handler]) *)

(** The value of [reason] after the [if]/[elif] chain, from the hour of the
    run, the CPU sample of the instance ([None] when CloudWatch has no
    datapoint) and the threshold. *)
Definition evaluate (hour : Z) (cpu : option pynum) (threshold : pynum)
  : option string :=
  if (hour >=? 20) || (hour <? 8) then Some "After hours"
  else
    match cpu with
    | Some c =>
        if py_lt c threshold then Some ("Low CPU: " ++ py_str c ++ "%")
        else None
    | None => None
    end.

(** Truth value of [reason] in [if reason:]: [None] and the empty string
    are false. *)
Definition truthy (reason : option string) : bool :=
  match reason with
  | None => false
  | Some "" => false
  | Some _ => true
  end.

(** ** Data exchanged with AWS *)

(** A datapoint of the CloudWatch answer; its [Timestamp], a [datetime], is
    a point of the time line. *)
Record Datapoint : Type := { Timestamp : Z; Average : pynum }.
Record Instance : Type := { InstanceId : string }.
Record Reservation : Type := { Instances : list Instance }.

(** [datetime.now(tz)], as far as the handler observes it: [now.hour] and
    [str(now)]. *)
Record DateTime : Type := { dt_hour : Z; dt_str : string }.

(** The module-level configuration read from the environment. *)
Record Config : Type := {
  TABLE_NAME : string;
  SNS_TOPIC_ARN : string;
  DRY_RUN : bool;
  CPU_THRESHOLD : Z;
  TIMEZONE : string
}.

Record Response : Type := { statusCode : Z; body : string }.

(** ** External calls *)

Inductive exn : Type :=
| ClientError (operation : string)
| UnknownTimeZoneError (zone : string)
| IndexError.

Inductive outcome (A : Type) : Type :=
| Returned (a : A)
| Raised (e : exn).
Arguments Returned {A} a.
Arguments Raised {A} e.

(** A request sent outside the process, with its arguments. *)
Inductive Call : Type :=
| LocalNow (zone : string)
| DescribeInstances (filters : list (string * list string))
| GetMetricStatistics (namespace metric_name : string)
    (dimensions : list (string * string)) (minutes period : Z)
    (statistics : list string)
| StopInstances (instance_ids : list string)
| PutItem (table_name : string) (item : list (string * string))
| Publish (topic_arn subject message : string).

(** What the environment answers to each request: a value or an exception.
    The answer depends on the request alone. *)
Record World : Type := {
  local_now : string -> outcome DateTime;
  describe_instances : list (string * list string) -> outcome (list Reservation);
  get_metric_statistics : string -> outcome (list Datapoint);
  stop_instances : list string -> outcome unit;
  put_item : string -> list (string * string) -> outcome unit;
  publish : string -> string -> string -> outcome unit
}.

(** A computation reads the world, logs the requests it sends, and returns
    or raises; an exception ends it (nothing in the handler catches one). *)
Definition M (A : Type) : Type := World -> list Call * outcome A.

Definition ret {A} (a : A) : M A := fun _ => ([], Returned a).

Definition raise {A} (e : exn) : M A := fun _ => ([], Raised e).

Definition bind {A B} (m : M A) (f : A -> M B) : M B :=
  fun w =>
    match m w with
    | (t1, Returned a) => let (t2, r) := f a w in (app t1 t2, r)
    | (t1, Raised e) => (t1, Raised e)
    end.

Declare Scope py_scope.
Delimit Scope py_scope with py.
Notation "x <- m ;; k" := (bind m (fun x => k))
  (at level 100, m at next level, right associativity) : py_scope.
Notation "m ;; k" := (bind m (fun _ => k))
  (at level 100, right associativity) : py_scope.
Local Open Scope py_scope.

Definition request {A} (c : Call) (answer : World -> outcome A) : M A :=
  fun w => ([c], answer w).

(** [for x in xs: body]. *)
Fixpoint for_each {A} (xs : list A) (body : A -> M unit) : M unit :=
  match xs with
  | [] => ret tt
  | x :: xs' => body x ;; for_each xs' body
  end.

Definition trace {A} (m : M A) (w : World) : list Call := fst (m w).
Definition result {A} (m : M A) (w : World) : outcome A := snd (m w).

(** ** [get_cpu_utilization] *)

(** [sorted(xs, key=...)]: ascending and stable. *)
Section Sorted.

Context {A : Type} (key : A -> Z).

Fixpoint insert (x : A) (l : list A) : list A :=
  match l with
  | [] => [x]
  | y :: l' => if key x <=? key y then x :: y :: l' else y :: insert x l'
  end.

Fixpoint sorted (l : list A) : list A :=
  match l with
  | [] => []
  | x :: l' => insert x (sorted l')
  end.

End Sorted.

(** [xs[-1]]. *)
Fixpoint index_last {A} (xs : list A) : M A :=
  match xs with
  | [] => raise IndexError
  | [x] => ret x
  | _ :: xs' => index_last xs'
  end.

Definition get_cpu_utilization (instance_id : string) : M (option pynum) :=
  response <- request
    (GetMetricStatistics "AWS/EC2" "CPUUtilization"
       [("InstanceId", instance_id)] 30 300 ["Average"])
    (fun w => get_metric_statistics w instance_id) ;;
  match response with
  | [] => ret None
  | _ =>
      latest <- index_last (sorted Timestamp response) ;;
      ret (Some (Average latest))
  end.

(** ** [lambda_handler] *)

Definition instance_filters : list (string * list string) :=
  [("tag:AutoStop", ["Yes"]);
   ("tag:Environment", ["Dev"; "Test"]);
   ("tag:Critical", ["No"]);
   ("instance-state-name", ["running"])].

Definition audit_item (instance_id : string) (now : DateTime) (reason : string)
  : list (string * string) :=
  [("InstanceId", instance_id); ("Timestamp", dt_str now); ("Reason", reason)].

Definition alert_message (instance_id reason : string) : string :=
  "Stopped " ++ instance_id ++ " due to " ++ reason.

(** The branch under [if reason:], lines 60-73. *)
Definition stop_record_notify (cfg : Config) (now : DateTime)
  (instance_id reason : string) : M unit :=
  (if negb (DRY_RUN cfg) then
     request (StopInstances [instance_id])
       (fun w => stop_instances w [instance_id])
   else ret tt) ;;
  request (PutItem (TABLE_NAME cfg) (audit_item instance_id now reason))
    (fun w => put_item w (TABLE_NAME cfg) (audit_item instance_id now reason)) ;;
  request
    (Publish (SNS_TOPIC_ARN cfg) "EC2 Optimization Alert"
       (alert_message instance_id reason))
    (fun w => publish w (SNS_TOPIC_ARN cfg) "EC2 Optimization Alert"
       (alert_message instance_id reason)).

(** The body of the inner loop, lines 50-73. [reason] is set anew on every
    iteration (line 53), so no value passes from one instance to the next. *)
Definition process_instance (cfg : Config) (now : DateTime) (inst : Instance)
  : M unit :=
  let instance_id := InstanceId inst in
  cpu <- get_cpu_utilization instance_id ;;
  let reason := evaluate (dt_hour now) cpu (PyInt (CPU_THRESHOLD cfg)) in
  if truthy reason then
    match reason with
    | Some reason => stop_record_notify cfg now instance_id reason
    | None => ret tt
    end
  else ret tt.

Definition lambda_handler (cfg : Config) : M Response :=
  now <- request (LocalNow (TIMEZONE cfg)) (fun w => local_now w (TIMEZONE cfg)) ;;
  instances <- request (DescribeInstances instance_filters)
    (fun w => describe_instances w instance_filters) ;;
  for_each instances (fun res =>
    for_each (Instances res) (fun inst =>
      process_instance cfg now inst)) ;;
  ret {| statusCode := 200; body := "Optimization complete" |}.

(** * Vocabulary of the properties *)

(** ** The policy *)

Definition after_hours (hour : Z) : Prop :=
  20 <= hour <= 23 \/ 0 <= hour <= 7.

Definition in_hours (hour : Z) : Prop := 8 <= hour <= 19.

Definition low_cpu_reason (c : pynum) : string := "Low CPU: " ++ py_str c ++ "%".

(** ** Requests and their order *)

Definition metric_call (instance_id : string) : Call :=
  GetMetricStatistics "AWS/EC2" "CPUUtilization"
    [("InstanceId", instance_id)] 30 300 ["Average"].

Definition is_stop (c : Call) : bool :=
  match c with
  | StopInstances _ => true
  | _ => false
  end.

(** The requests of the branch under [if reason:]. *)
Definition is_action (c : Call) : bool :=
  match c with
  | StopInstances _ | PutItem _ _ | Publish _ _ _ => true
  | _ => false
  end.

Definition put_call (cfg : Config) (now : DateTime) (id reason : string) : Call :=
  PutItem (TABLE_NAME cfg) (audit_item id now reason).

Definition publish_call (cfg : Config) (id reason : string) : Call :=
  Publish (SNS_TOPIC_ARN cfg) "EC2 Optimization Alert" (alert_message id reason).

Definition key_le {A} (key : A -> Z) (x y : A) : Prop := key x <= key y.

(** The value [get_cpu_utilization] returns for a list of datapoints. *)
Definition latest_average (datapoints : list Datapoint) : option pynum :=
  match datapoints with
  | [] => None
  | d :: _ => Some (Average (last (sorted Timestamp datapoints) d))
  end.

(** ** What a computation satisfies *)

(** [satisfies m w T Q E]: in world [w], every request of [m] is in [T],
    a returned value is in [Q] and a raised exception is in [E]. *)
Definition satisfies {A} (m : M A) (w : World)
  (T : Call -> Prop) (Q : A -> Prop) (E : exn -> Prop) : Prop :=
  Forall T (trace m w) /\
  match result m w with
  | Returned a => Q a
  | Raised e => E e
  end.

(** ** Dry run *)

Definition set_dry_run (b : bool) (cfg : Config) : Config :=
  {| TABLE_NAME := TABLE_NAME cfg;
     SNS_TOPIC_ARN := SNS_TOPIC_ARN cfg;
     DRY_RUN := b;
     CPU_THRESHOLD := CPU_THRESHOLD cfg;
     TIMEZONE := TIMEZONE cfg |}.



(** ** Runs in which every service answers *)

(** The per-instance services: CloudWatch, stop, DynamoDB and SNS. *)
Definition services_answer (w : World) : Prop :=
  (forall id, exists dps, get_metric_statistics w id = Returned dps) /\
  (forall ids, stop_instances w ids = Returned tt) /\
  (forall table item, put_item w table item = Returned tt) /\
  (forall topic subject message, publish w topic subject message = Returned tt).

(** The CPU sample of an instance in a world. *)
Definition sample (w : World) (id : string) : option pynum :=
  match get_metric_statistics w id with
  | Returned dps => latest_average dps
  | Raised _ => None
  end.

Definition all_instances (reservations : list Reservation) : list Instance :=
  flat_map Instances reservations.

(** The requests of one iteration when every service answers. *)
Definition instance_calls (cfg : Config) (now : DateTime) (w : World)
  (inst : Instance) : list Call :=
  let id := InstanceId inst in
  metric_call id ::
  match evaluate (dt_hour now) (sample w id) (PyInt (CPU_THRESHOLD cfg)) with
  | Some reason =>
      app (if DRY_RUN cfg then [] else [StopInstances [id]])
        [put_call cfg now id reason; publish_call cfg id reason]
  | None => []
  end.

Definition ok_response : Response :=
  {| statusCode := 200; body := "Optimization complete" |}.

(** A notification is that of an instance of the run and of its reason. *)
Definition notifies (cfg : Config) (w : World) (c : Call) : Prop :=
  match c with
  | Publish topic subject message =>
      exists now rs inst cpu reason,
        local_now w (TIMEZONE cfg) = Returned now /\
        describe_instances w instance_filters = Returned rs /\
        In inst (all_instances rs) /\
        result (get_cpu_utilization (InstanceId inst)) w = Returned cpu /\
        evaluate (dt_hour now) cpu (PyInt (CPU_THRESHOLD cfg)) = Some reason /\
        topic = SNS_TOPIC_ARN cfg /\
        subject = "EC2 Optimization Alert" /\
        message = "Stopped " ++ InstanceId inst ++ " due to " ++ reason
  | _ => True
  end.

(** [e] is an exception some service of the world raises. *)
Definition world_raises (w : World) (e : exn) : Prop :=
  (exists zone, local_now w zone = Raised e) \/
  (exists filters, describe_instances w filters = Raised e) \/
  (exists id, get_metric_statistics w id = Raised e) \/
  (exists ids, stop_instances w ids = Raised e) \/
  (exists table item, put_item w table item = Raised e) \/
  (exists topic subject message, publish w topic subject message = Raised e).

(** ** Decisions read from the audit records *)

Definition item_get (key : string) (item : list (string * string)) : option string :=
  match find (fun kv => String.eqb (fst kv) key) item with
  | Some kv => Some (snd kv)
  | None => None
  end.

Definition records_instance (id : string) (c : Call) : bool :=
  match c with
  | PutItem _ item =>
      match item_get "InstanceId" item with
      | Some id' => String.eqb id' id
      | None => false
      end
  | _ => false
  end.

(** The decision a run took for an instance, read from the audit records
    it wrote: the reason of the first record of the instance, [None] when
    the run wrote none. *)
Definition recorded_reason (t : list Call) (id : string) : option string :=
  match find (records_instance id) t with
  | Some (PutItem _ item) => item_get "Reason" item
  | _ => None
  end.

Definition listed (id : string) (insts : list Instance) : bool :=
  existsb (fun inst => String.eqb (InstanceId inst) id) insts.

(** ** A concrete run *)

Definition sample_config : Config :=
  {| TABLE_NAME := "ec2-optimizer-log";
     SNS_TOPIC_ARN := "arn:aws:sns:ap-south-1:123456789012:ec2-alerts";
     DRY_RUN := false;
     CPU_THRESHOLD := 10;
     TIMEZONE := "Asia/Kolkata" |}.

Definition sample_datapoints : list Datapoint :=
  [ {| Timestamp := 1714552200; Average := PyFloat 55.25 |};
    {| Timestamp := 1714552800; Average := PyFloat 3.2 |};
    {| Timestamp := 1714552500; Average := PyFloat 41.5 |} ].

Definition sample_now : DateTime :=
  {| dt_hour := 14; dt_str := "2024-05-01 14:03:27.120000+05:30" |}.

Definition sample_reservations : list Reservation :=
  [ {| Instances := [ {| InstanceId := "i-0a1" |}; {| InstanceId := "i-0b2" |} ] |};
    {| Instances := [ {| InstanceId := "i-0c3" |} ] |} ].

Definition sample_world : World :=
  {| local_now := fun _ => Returned sample_now;
     describe_instances := fun _ => Returned sample_reservations;
     get_metric_statistics := fun id =>
       if String.eqb id "i-0a1" then Returned sample_datapoints
       else if String.eqb id "i-0b2" then Returned []
       else Returned [ {| Timestamp := 1714552800; Average := PyFloat 80 |} ];
     stop_instances := fun _ => Returned tt;
     put_item := fun _ _ => Returned tt;
     publish := fun _ _ _ => Returned tt |}.

(** The sample world with the same instances in another order and grouping. *)
Definition permuted_reservations : list Reservation :=
  [ {| Instances := [ {| InstanceId := "i-0c3" |}; {| InstanceId := "i-0a1" |} ] |};
    {| Instances := [ {| InstanceId := "i-0b2" |} ] |} ].

Definition permuted_world : World :=
  {| local_now := local_now sample_world;
     describe_instances := fun _ => Returned permuted_reservations;
     get_metric_statistics := get_metric_statistics sample_world;
     stop_instances := stop_instances sample_world;
     put_item := put_item sample_world;
     publish := publish sample_world |}.

(** * The configuration read at import time (lines 11-15) *)

(** [os.environ]: the value of a variable, if it is set. *)
Definition environ : Type := string -> option string.

Inductive import_error : Type :=
| KeyError (key : string)
| ValueError (text : string).

Definition lower_ascii (c : ascii) : ascii :=
  let n := nat_of_ascii c in
  if (Nat.leb 65 n) && (Nat.leb n 90) then ascii_of_nat (n + 32) else c.

(** [str.lower] on the bytes of a string: the letters A-Z are lowered and
    every other byte is left as it is. No character outside ASCII has a
    lower case made of the letters of "true", so [lower s = "true"] is the
    comparison line 13 makes. *)
Fixpoint lower (s : string) : string :=
  match s with
  | EmptyString => EmptyString
  | String c s' => String (lower_ascii c) (lower s')
  end.

Section ModuleImport.

(** The built-in [int] on a [str]: the integer it denotes, or nothing when
    it raises [ValueError]. *)
Variable int : string -> option Z.

(** [os.environ[key]]. *)
Definition getenv (env : environ) (key : string) : import_error + string :=
  match env key with
  | Some v => inr v
  | None => inl (KeyError key)
  end.

(** Lines 11-15, in their order. *)
Definition load_config (env : environ) : import_error + Config :=
  match getenv env "TABLE_NAME" with
  | inl err => inl err
  | inr table_name =>
  match getenv env "SNS_TOPIC_ARN" with
  | inl err => inl err
  | inr sns_topic_arn =>
  match getenv env "DRY_RUN" with
  | inl err => inl err
  | inr dry_run =>
  match getenv env "CPU_THRESHOLD" with
  | inl err => inl err
  | inr cpu_threshold =>
  match int cpu_threshold with
  | None => inl (ValueError cpu_threshold)
  | Some threshold =>
  match getenv env "TIMEZONE" with
  | inl err => inl err
  | inr timezone =>
      inr {| TABLE_NAME := table_name;
             SNS_TOPIC_ARN := sns_topic_arn;
             DRY_RUN := String.eqb (lower dry_run) "true";
             CPU_THRESHOLD := threshold;
             TIMEZONE := timezone |}
  end end end end end end.

End ModuleImport.

(** The variables the module reads, in the order it reads them. *)
Definition settings : list string :=
  ["TABLE_NAME"; "SNS_TOPIC_ARN"; "DRY_RUN"; "CPU_THRESHOLD"; "TIMEZONE"].

(** The first variable of a list that is not set. *)
Fixpoint first_unset (env : environ) (keys : list string) : option string :=
  match keys with
  | [] => None
  | k :: keys' =>
      match env k with
      | Some _ => first_unset env keys'
      | None => Some k
      end
  end.

(** A letter in either case. *)
Definition either_case (lo up c : ascii) : Prop := c = lo \/ c = up.

(** An environment given by a list of bindings. *)
Definition env_of (bindings : list (string * string)) : environ :=
  fun key =>
    match find (fun kv => String.eqb (fst kv) key) bindings with
    | Some kv => Some (snd kv)
    | None => None
    end.

(** * Vocabulary of the further properties *)

(** [inst] is an instance of the run, at time [now], and [reason] is the
    reason the policy gives for it. *)
Definition decided (cfg : Config) (w : World) (now : DateTime)
  (inst : Instance) (reason : string) : Prop :=
  exists rs cpu,
    local_now w (TIMEZONE cfg) = Returned now /\
    describe_instances w instance_filters = Returned rs /\
    In inst (all_instances rs) /\
    result (get_cpu_utilization (InstanceId inst)) w = Returned cpu /\
    evaluate (dt_hour now) cpu (PyInt (CPU_THRESHOLD cfg)) = Some reason.

(** A stop request is for one instance of the run that has a reason, and
    is sent outside dry runs only. *)
Definition stops_decided (cfg : Config) (w : World) (c : Call) : Prop :=
  match c with
  | StopInstances ids =>
      DRY_RUN cfg = false /\
      exists now inst reason,
        decided cfg w now inst reason /\ ids = [InstanceId inst]
  | _ => True
  end.


(** The world answers request [c] with exception [e]. *)
Definition raised_by (w : World) (c : Call) (e : exn) : Prop :=
  match c with
  | LocalNow zone => local_now w zone = Raised e
  | DescribeInstances filters => describe_instances w filters = Raised e
  | GetMetricStatistics _ _ [(_, id)] _ _ _ => get_metric_statistics w id = Raised e
  | GetMetricStatistics _ _ _ _ _ _ => False
  | StopInstances ids => stop_instances w ids = Raised e
  | PutItem table item => put_item w table item = Raised e
  | Publish topic subject message => publish w topic subject message = Raised e
  end.

Definition answered (w : World) (c : Call) : Prop := forall e, ~ raised_by w c e.

(** The requests of a computation up to the first exception: all answered
    when it returns; when it raises, all answered but the last, which
    raised the exception. *)
Definition ends_at_first_exception {A} (m : M A) (w : World) : Prop :=
  match result m w with
  | Returned _ => Forall (answered w) (trace m w)
  | Raised e =>
      exists t c,
        trace m w = app t [c] /\ Forall (answered w) t /\ raised_by w c e
  end.

(** The policy gives the instance a reason. *)
Definition has_reason (cfg : Config) (now : DateTime) (w : World)
  (inst : Instance) : bool :=
  match evaluate (dt_hour now) (sample w (InstanceId inst))
          (PyInt (CPU_THRESHOLD cfg)) with
  | Some _ => true
  | None => false
  end.


(** Datapoints with two most recent ones of the same [Timestamp]. *)
Definition tied_datapoints : list Datapoint :=
  [ {| Timestamp := 1714552800; Average := PyFloat 5 |};
    {| Timestamp := 1714552800; Average := PyFloat 7.5 |};
    {| Timestamp := 1714552500; Average := PyFloat 1 |} ].

Definition tied_world : World :=
  {| local_now := local_now sample_world;
     describe_instances := describe_instances sample_world;
     get_metric_statistics := fun _ => Returned tied_datapoints;
     stop_instances := stop_instances sample_world;
     put_item := put_item sample_world;
     publish := publish sample_world |}.

(** The sample datapoints in another order. *)
Definition shuffled_world : World :=
  {| local_now := local_now sample_world;
     describe_instances := describe_instances sample_world;
     get_metric_statistics := fun _ => Returned (rev sample_datapoints);
     stop_instances := stop_instances sample_world;
     put_item := put_item sample_world;
     publish := publish sample_world |}.

(** A world whose CloudWatch raises for one instance. *)
Definition failing_world : World :=
  {| local_now := local_now sample_world;
     describe_instances := describe_instances sample_world;
     get_metric_statistics := fun id =>
       if String.eqb id "i-0b2" then Raised (ClientError "GetMetricStatistics")
       else get_metric_statistics sample_world id;
     stop_instances := stop_instances sample_world;
     put_item := put_item sample_world;
     publish := publish sample_world |}.

(** A world with no eligible instance. *)
Definition idle_world : World :=
  {| local_now := local_now sample_world;
     describe_instances := fun _ => Returned [ {| Instances := [] |} ];
     get_metric_statistics := get_metric_statistics sample_world;
     stop_instances := stop_instances sample_world;
     put_item := put_item sample_world;
     publish := publish sample_world |}.

(** The sample world at 22:15. *)
Definition night_now : DateTime :=
  {| dt_hour := 22; dt_str := "2024-05-01 22:15:02.501000+05:30" |}.

Definition night_world : World :=
  {| local_now := fun _ => Returned night_now;
     describe_instances := describe_instances sample_world;
     get_metric_statistics := get_metric_statistics sample_world;
     stop_instances := stop_instances sample_world;
     put_item := put_item sample_world;
     publish := publish sample_world |}.

(** A world at 22:15 whose CloudWatch raises for one instance. *)
Definition night_failing_world : World :=
  {| local_now := fun _ => Returned night_now;
     describe_instances := describe_instances sample_world;
     get_metric_statistics := get_metric_statistics failing_world;
     stop_instances := stop_instances sample_world;
     put_item := put_item sample_world;
     publish := publish sample_world |}.

Definition sample_environ : environ :=
  env_of [("TABLE_NAME", "ec2-optimizer-log");
          ("SNS_TOPIC_ARN", "arn:aws:sns:ap-south-1:123456789012:ec2-alerts");
          ("DRY_RUN", "True");
          ("CPU_THRESHOLD", "10");
          ("TIMEZONE", "Asia/Kolkata")].

(** Decimal digits only: enough of [int] for the sample environment. *)
Fixpoint digits_value (s : string) (acc : Z) : option Z :=
  match s with
  | EmptyString => Some acc
  | String c s' =>
      let n := Z.of_nat (nat_of_ascii c) in
      if (48 <=? n) && (n <=? 57) then digits_value s' (acc * 10 + (n - 48))
      else None
  end.

Definition int_of_digits (s : string) : option Z :=
  match s with
  | EmptyString => None
  | _ => digits_value s 0
  end.

(** * The policy on run-time values (lines 53-57) *)

(** What [hour], [cpu] and [CPU_THRESHOLD] can hold when the policy runs:
    [None] or a number. Python checks the operands of a comparison when it
    is evaluated, and raises [TypeError] when one of them is [None]. *)
Inductive pyval : Type :=
| VNone
| VNum (a : pynum).

(** The exceptions the operations of the policy can raise: [TypeError] from
    a comparison, and the [ValueError] of [str] on an [int] of more than
    4300 digits. *)
Inductive runtime_error : Type :=
| TypeError (operator : string)
| IntStrDigitsError.

Inductive attempt (A : Type) : Type :=
| Value (a : A)
| Error (e : runtime_error).
Arguments Value {A} a.
Arguments Error {A} e.

(** An expression evaluated in a world: the requests it sends, and its
    value or the exception it raises. *)
Definition Dyn (A : Type) : Type := World -> list Call * attempt A.

Definition dyn_ret {A} (a : A) : Dyn A := fun _ => ([], Value a).

Definition dyn_raise {A} (e : runtime_error) : Dyn A := fun _ => ([], Error e).

Definition dyn_bind {A B} (m : Dyn A) (f : A -> Dyn B) : Dyn B :=
  fun w =>
    match m w with
    | (t1, Value a) => let (t2, r) := f a w in (app t1 t2, r)
    | (t1, Error e) => (t1, Error e)
    end.

Definition ext_ge (a b : extended) : bool :=
  match a, b with
  | NaN, _ | _, NaN => false
  | PosInf, _ => true
  | _, NegInf => true
  | NegInf, _ => false
  | Finite _, PosInf => false
  | Finite p, Finite q => Qle_bool q p
  end.

(** Python's [a >= b] on numbers. *)
Definition py_ge (a b : pynum) : bool := ext_ge (py_value a) (py_value b).

(** [a >= b]. *)
Definition dyn_ge (a b : pyval) : Dyn bool :=
  match a, b with
  | VNum x, VNum y => dyn_ret (py_ge x y)
  | _, _ => dyn_raise (TypeError ">=")
  end.

(** [a < b]. *)
Definition dyn_lt (a b : pyval) : Dyn bool :=
  match a, b with
  | VNum x, VNum y => dyn_ret (py_lt x y)
  | _, _ => dyn_raise (TypeError "<")
  end.

Definition int_max_str_digits : Z := 4300.

(** [f"{a}"]. An [int] has more than 4300 digits when its absolute value
    reaches 10^4300. *)
Definition dyn_format (a : pyval) : Dyn string :=
  match a with
  | VNone => dyn_ret "None"
  | VNum (PyInt n) =>
      if 10 ^ int_max_str_digits <=? Z.abs n
      then dyn_raise IntStrDigitsError
      else dyn_ret (int_str n)
  | VNum (PyFloat x) => dyn_ret (py_str (PyFloat x))
  end.

(** Lines 53-57 on run-time values, each operation in the order Python
    evaluates it: [or] and [and] stop at the first operand that decides. *)
Definition evaluate_dynamic (hour cpu threshold : pyval) : Dyn (option string) :=
  dyn_bind
    (dyn_bind (dyn_ge hour (VNum (PyInt 20)))
       (fun late => if late then dyn_ret true else dyn_lt hour (VNum (PyInt 8))))
    (fun after =>
       if after then dyn_ret (Some "After hours")
       else
         match cpu with
         | VNone => dyn_ret None
         | VNum _ =>
             dyn_bind (dyn_lt cpu threshold)
               (fun low =>
                  if low then
                    dyn_bind (dyn_format cpu)
                      (fun text => dyn_ret (Some ("Low CPU: " ++ text ++ "%")))
                  else dyn_ret None)
         end).

(** The run-time value of a CPU sample: [None] or a [float]. *)
Definition sample_value (cpu : option float) : pyval :=
  match cpu with
  | None => VNone
  | Some x => VNum (PyFloat x)
  end.

(** * Runs in which a stop request raises *)



(** The sample world at 22:15, with a stop request that raises for one
    instance. *)
Definition stop_failing_world : World :=
  {| local_now := fun _ => Returned night_now;
     describe_instances := describe_instances sample_world;
     get_metric_statistics := get_metric_statistics sample_world;
     stop_instances := fun ids =>
       match ids with
       | [id] => if String.eqb id "i-0a1" then Raised (ClientError "StopInstances")
                 else Returned tt
       | _ => Returned tt
       end;
     put_item := put_item sample_world;
     publish := publish sample_world |}.

(** The same world with the instances listed in another order. *)
Definition stop_failing_permuted_world : World :=
  {| local_now := local_now stop_failing_world;
     describe_instances := fun _ => Returned permuted_reservations;
     get_metric_statistics := get_metric_statistics stop_failing_world;
     stop_instances := stop_instances stop_failing_world;
     put_item := put_item stop_failing_world;
     publish := publish stop_failing_world |}.

(** * Properties *)

(** ** Python numbers *)

Lemma Qltb_lt p q : Qltb p q = true <-> (p < q)%Q.
Proof.
  unfold Qltb. rewrite negb_true_iff.
  split; intros H.
  - apply Qnot_le_lt. intros Hle. apply Qle_bool_iff in Hle. congruence.
  - destruct (Qle_bool q p) eqn:E; [| reflexivity].
    apply Qle_bool_iff in E. exfalso. exact (Qlt_not_le _ _ H E).
Qed.

Lemma py_eq_not_lt a b : py_eq a b = true -> py_lt a b = false.
Proof.
  unfold py_eq, py_lt.
  destruct (py_value a) as [| | p |], (py_value b) as [| | q |];
    simpl; try discriminate; try reflexivity.
  intros H. apply Qeq_bool_iff in H.
  destruct (Qltb p q) eqn:E; [| reflexivity].
  apply Qltb_lt in E. rewrite H in E. exfalso. exact (Qlt_irrefl _ E).
Qed.

Lemma py_lt_irrefl a : py_lt a a = false.
Proof.
  unfold py_lt. destruct (py_value a) as [| | p |]; simpl; try reflexivity.
  destruct (Qltb p p) eqn:E; [| reflexivity].
  apply Qltb_lt in E. exfalso. exact (Qlt_irrefl _ E).
Qed.

(** The binary64 value that the literal [3.2] denotes, and its distance to
    32/10: half a unit in the last place (2^-52) at most. *)
Example float_3_2 :
  Prim2SF 3.2 = S754_finite false 7205759403792794 (-51) /\
  Z.abs (32 * 2 ^ 51 - 10 * 7205759403792794) * 2 ^ 52 <= 10 * 2 ^ 51.
Proof. split; vm_compute; [reflexivity | discriminate]. Qed.

(** [repr] on a few floats, and [str] on a few integers. *)
Example py_str_examples :
  map py_str
    [PyFloat 3.2; PyFloat 10; PyFloat 0.1; PyFloat 99.99; PyFloat 0.16666666666666666;
     PyFloat 0.30000000000000004; PyFloat 1e16; PyFloat 1e-5; PyFloat 1e23;
     PyFloat 5e-324; PyFloat (-2.5); PyFloat 0; PyFloat infinity; PyFloat nan;
     PyInt 10; PyInt 0; PyInt (-42)] =
    ["3.2"; "10.0"; "0.1"; "99.99"; "0.16666666666666666";
     "0.30000000000000004"; "1e+16"; "1e-05"; "1e+23";
     "5e-324"; "-2.5"; "0.0"; "inf"; "nan";
     "10"; "0"; "-42"].
Proof. vm_compute. reflexivity. Qed.

(** A tie on the last digit goes to the even one: 2^-25 is
    2.98023223876953125e-08. *)
Example float_repr_tie :
  float_repr (S754_finite false 4503599627370496 (-77)) = "2.9802322387695312e-08".
Proof. vm_compute. reflexivity. Qed.

Example py_lt_1 : py_lt (PyFloat 3.2) (PyInt 10) = true.
Proof. vm_compute. reflexivity. Qed.

Example py_lt_2 : py_lt (PyFloat 10) (PyInt 10) = false.
Proof. vm_compute. reflexivity. Qed.

(** ** The policy *)

Lemma evaluate_after_hours hour cpu threshold :
  20 <= hour \/ hour < 8 -> evaluate hour cpu threshold = Some "After hours".
Proof.
  intros H. unfold evaluate.
  destruct H as [H | H].
  - apply Z.geb_le in H. now rewrite H.
  - apply Z.ltb_lt in H. rewrite H. now rewrite orb_true_r.
Qed.

Lemma evaluate_in_hours hour cpu threshold :
  in_hours hour ->
  evaluate hour cpu threshold =
    match cpu with
    | Some c => if py_lt c threshold then Some (low_cpu_reason c) else None
    | None => None
    end.
Proof.
  intros [H8 H19]. unfold evaluate.
  replace (hour >=? 20) with false by (symmetry; rewrite Z.geb_leb; apply Z.leb_gt; lia).
  replace (hour <? 8) with false by (symmetry; apply Z.ltb_ge; lia).
  reflexivity.
Qed.

(** C1: in the hours 20..23 and 0..7 the reason is "After hours" for every
    CPU sample, present or not, and every threshold; the time rule comes
    first, so the reason is never the low-CPU one, whatever the sample. *)
Theorem after_hours_takes_precedence hour cpu threshold :
  after_hours hour ->
  evaluate hour cpu threshold = Some "After hours" /\
  forall c, evaluate hour cpu threshold <> Some (low_cpu_reason c).
Proof.
  intros H.
  assert (E : evaluate hour cpu threshold = Some "After hours").
  { apply evaluate_after_hours. unfold after_hours in H. lia. }
  split; [exact E |].
  intros c. rewrite E. unfold low_cpu_reason. simpl. discriminate.
Qed.

Lemma after_hours_takes_precedence_witness :
  after_hours 20 /\
  py_lt (PyFloat 0) (PyInt 50) = true /\
  evaluate 20 (Some (PyFloat 0)) (PyInt 50) = Some "After hours" /\
  evaluate 7 (Some (PyFloat 99)) (PyInt 10) = Some "After hours".
Proof.
  assert (H20 : after_hours 20) by (left; lia).
  assert (H7 : after_hours 7) by (right; lia).
  split; [exact H20 |].
  split; [vm_compute; reflexivity |].
  split.
  - exact (proj1 (after_hours_takes_precedence 20 (Some (PyFloat 0)) (PyInt 50) H20)).
  - exact (proj1 (after_hours_takes_precedence 7 (Some (PyFloat 99)) (PyInt 10) H7)).
Defined.

(** C2: in the hours 8..19, with a CPU sample [c] and a threshold [t], the
    reason is "Low CPU: c%", with [c] formatted as it was retrieved, exactly
    when [c < t] (on finite values, the order of their exact values), and
    there is no reason otherwise; the comparison is strict (a sample equal
    to the threshold gives no stop). At hour 8, sample 10 and
    threshold 10 give no reason; at hour 14, sample 3.2 and threshold 10
    give "Low CPU: 3.2%". *)
Theorem low_cpu_iff_below_threshold :
  (forall hour c t, in_hours hour ->
     (evaluate hour (Some c) t = Some (low_cpu_reason c) <-> py_lt c t = true) /\
     (py_lt c t = false -> evaluate hour (Some c) t = None) /\
     (py_eq c t = true -> evaluate hour (Some c) t = None) /\
     (forall p q, py_value c = Finite p -> py_value t = Finite q ->
        (evaluate hour (Some c) t = Some (low_cpu_reason c) <-> (p < q)%Q))) /\
  evaluate 8 (Some (PyFloat 10)) (PyInt 10) = None /\
  evaluate 8 (Some (PyInt 10)) (PyInt 10) = None /\
  evaluate 14 (Some (PyFloat 3.2)) (PyInt 10) = Some "Low CPU: 3.2%".
Proof.
  split.
  - intros hour c t Hh. rewrite (evaluate_in_hours _ _ _ Hh).
    assert (Hiff : (if py_lt c t then Some (low_cpu_reason c) else None) =
                     Some (low_cpu_reason c) <-> py_lt c t = true).
    { destruct (py_lt c t); split; intros H; try reflexivity; discriminate. }
    split; [exact Hiff |]. split; [| split].
    + intros H. now rewrite H.
    + intros H. now rewrite (py_eq_not_lt _ _ H).
    + intros p q Hp Hq. rewrite Hiff. unfold py_lt. rewrite Hp, Hq. simpl.
      apply Qltb_lt.
  - repeat split; vm_compute; reflexivity.
Qed.

Lemma low_cpu_iff_below_threshold_witness :
  in_hours 14 /\
  py_lt (PyFloat 3.2) (PyInt 10) = true /\
  evaluate 14 (Some (PyFloat 3.2)) (PyInt 10) = Some (low_cpu_reason (PyFloat 3.2)).
Proof.
  assert (H : in_hours 14) by (unfold in_hours; lia).
  assert (L : py_lt (PyFloat 3.2) (PyInt 10) = true) by (vm_compute; reflexivity).
  split; [exact H |]. split; [exact L |].
  exact (proj2 (proj1 (proj1 low_cpu_iff_below_threshold 14 (PyFloat 3.2) (PyInt 10) H)) L).
Defined.

(** C3: in the hours 8..19, with no CPU sample, there is no stop reason. *)
Theorem no_sample_no_stop hour threshold :
  in_hours hour -> evaluate hour None threshold = None.
Proof.
  intros H. now rewrite (evaluate_in_hours _ _ _ H).
Qed.

Lemma no_sample_no_stop_witness :
  in_hours 8 /\ evaluate 8 None (PyInt 10) = None.
Proof.
  assert (H : in_hours 8) by (unfold in_hours; lia).
  split; [exact H | exact (no_sample_no_stop 8 (PyInt 10) H)].
Defined.

Lemma py_ge_int a b : py_ge (PyInt a) (PyInt b) = (a >=? b).
Proof.
  unfold py_ge. simpl. unfold Qle_bool. simpl.
  now rewrite !Z.mul_1_r, Z.geb_leb.
Qed.

Lemma py_lt_int a b : py_lt (PyInt a) (PyInt b) = (a <? b).
Proof.
  unfold py_lt. simpl. unfold Qltb, Qle_bool. simpl.
  now rewrite !Z.mul_1_r, Z.ltb_antisym.
Qed.

(** Ill-typed operands do raise: a missing hour or threshold is a
    [TypeError], and an [int] sample of more than 4300 digits a
    [ValueError] when the reason is formatted. *)
Example evaluate_dynamic_errors :
  evaluate_dynamic VNone (VNum (PyFloat 3.2)) (VNum (PyInt 10)) sample_world =
    ([], Error (TypeError ">=")) /\
  evaluate_dynamic (VNum (PyInt 14)) (VNum (PyFloat 3.2)) VNone sample_world =
    ([], Error (TypeError "<")) /\
  evaluate_dynamic (VNum (PyInt 14)) (VNum (PyInt (- 10 ^ 4300))) (VNum (PyInt 10))
    sample_world = ([], Error IntStrDigitsError) /\
  evaluate_dynamic (VNum (PyInt 22)) (VNum (PyFloat 3.2)) VNone sample_world =
    ([], Value (Some "After hours")).
Proof.
  split; [vm_compute; reflexivity |].
  split; [vm_compute; reflexivity |].
  split; vm_compute; reflexivity.
Qed.

(** C4: on its typed inputs (an integer hour, a CPU sample that is [None]
    or a [float], a threshold that is a [float] or an [int]) the policy
    raises no exception and sends no request, in every world, and its value
    is the [None] or the reason string of [evaluate]: none of the
    comparisons of lines 54-56 meets a [None] and the [float] is formatted
    without error. *)
Theorem evaluate_never_raises (hour : Z) (cpu : option float)
  (threshold : pynum) (w : World) :
  evaluate_dynamic (VNum (PyInt hour)) (sample_value cpu) (VNum threshold) w =
    ([], Value (evaluate hour (option_map PyFloat cpu) threshold)).
Proof.
  unfold evaluate_dynamic, evaluate, dyn_bind, dyn_ge, dyn_lt, dyn_ret.
  rewrite py_ge_int, py_lt_int.
  destruct (hour >=? 20); simpl; [reflexivity |].
  destruct (hour <? 8); simpl; [reflexivity |].
  destruct cpu as [x |]; simpl; [| reflexivity].
  destruct (py_lt (PyFloat x) threshold); reflexivity.
Qed.

(** ** Reasoning about computations *)

Lemma trace_bind {A B} (m : M A) (f : A -> M B) w :
  trace (bind m f) w =
    app (trace m w)
      match result m w with
      | Returned a => trace (f a) w
      | Raised _ => []
      end.
Proof.
  unfold trace, result, bind.
  destruct (m w) as [t1 [a | e]]; simpl.
  - now destruct (f a w).
  - now rewrite app_nil_r.
Qed.

Lemma result_bind {A B} (m : M A) (f : A -> M B) w :
  result (bind m f) w =
    match result m w with
    | Returned a => result (f a) w
    | Raised e => Raised e
    end.
Proof.
  unfold result, bind.
  destruct (m w) as [t1 [a | e]]; simpl; [| reflexivity].
  now destruct (f a w).
Qed.

Lemma trace_for_each_cons {A} (x : A) xs body w :
  trace (for_each (x :: xs) body) w =
    app (trace (body x) w)
      match result (body x) w with
      | Returned _ => trace (for_each xs body) w
      | Raised _ => []
      end.
Proof. simpl. apply trace_bind. Qed.

Lemma result_for_each_cons {A} (x : A) xs body w :
  result (for_each (x :: xs) body) w =
    match result (body x) w with
    | Returned _ => result (for_each xs body) w
    | Raised e => Raised e
    end.
Proof. simpl. apply result_bind. Qed.

Section Rules.

Context (w : World) (T : Call -> Prop) (E : exn -> Prop).

Lemma satisfies_ret {A} (a : A) (Q : A -> Prop) :
  Q a -> satisfies (ret a) w T Q E.
Proof. intros H. split; [constructor | exact H]. Qed.

Lemma satisfies_raise {A} (e : exn) (Q : A -> Prop) :
  E e -> satisfies (raise e) w T Q E.
Proof. intros H. split; [constructor | exact H]. Qed.

Lemma satisfies_request {A} c (answer : World -> outcome A) (Q : A -> Prop) :
  T c ->
  (forall a, answer w = Returned a -> Q a) ->
  (forall e, answer w = Raised e -> E e) ->
  satisfies (request c answer) w T Q E.
Proof.
  intros Hc Hq He. split.
  - repeat constructor. exact Hc.
  - unfold result, request; simpl. destruct (answer w); auto.
Qed.

Lemma satisfies_bind {A B} (m : M A) (f : A -> M B) (P : A -> Prop) Q :
  satisfies m w T P E ->
  (forall a, result m w = Returned a -> P a -> satisfies (f a) w T Q E) ->
  satisfies (bind m f) w T Q E.
Proof.
  intros [Ht Hr] Hf. unfold satisfies.
  rewrite trace_bind, result_bind.
  destruct (result m w) as [a | e] eqn:R.
  - destruct (Hf a eq_refl Hr) as [Ht' Hr'].
    split; [apply Forall_app; split; assumption | exact Hr'].
  - rewrite app_nil_r. split; assumption.
Qed.

Lemma satisfies_for_each {A} (xs : list A) body :
  (forall x, In x xs -> satisfies (body x) w T (fun _ => True) E) ->
  satisfies (for_each xs body) w T (fun _ => True) E.
Proof.
  induction xs as [| x xs IH]; intros H.
  - apply satisfies_ret. exact I.
  - simpl. apply satisfies_bind with (P := fun _ => True).
    + apply H. now left.
    + intros _ _ _. apply IH. intros y Hy. apply H. now right.
Qed.

End Rules.

(** A loop whose every iteration returns sends the requests of the
    iterations in order, and returns. *)
Lemma for_each_returns {A} (xs : list A) body w :
  (forall x, In x xs -> result (body x) w = Returned tt) ->
  trace (for_each xs body) w = flat_map (fun x => trace (body x) w) xs /\
  result (for_each xs body) w = Returned tt.
Proof.
  induction xs as [| x xs IH]; intros H.
  - split; reflexivity.
  - destruct IH as [IHt IHr]; [intros y Hy; apply H; now right |].
    rewrite trace_for_each_cons, result_for_each_cons.
    rewrite (H x (or_introl eq_refl)), IHt, IHr.
    split; reflexivity.
Qed.

(** ** The metrics lookup *)

Section SortedFacts.

Context {A : Type} (key : A -> Z).

Lemma insert_perm x l : Permutation (x :: l) (insert key x l).
Proof.
  induction l as [| y l IH]; simpl.
  - apply Permutation_refl.
  - destruct (key x <=? key y).
    + apply Permutation_refl.
    + eapply perm_trans; [apply perm_swap |].
      now apply perm_skip.
Qed.

Lemma sorted_perm l : Permutation l (sorted key l).
Proof.
  induction l as [| x l IH]; simpl.
  - constructor.
  - eapply perm_trans; [apply perm_skip, IH | apply insert_perm].
Qed.

Lemma insert_ordered x l :
  StronglySorted (key_le key) l -> StronglySorted (key_le key) (insert key x l).
Proof.
  induction l as [| y l IH]; intros H; simpl.
  - repeat constructor.
  - inversion H as [| ? ? Hl Hy]; subst.
    destruct (key x <=? key y) eqn:C.
    + apply Z.leb_le in C. constructor; [exact H |].
      constructor; [exact C |].
      eapply Forall_impl; [| exact Hy].
      intros z Hz. unfold key_le in *. lia.
    + apply Z.leb_gt in C. constructor; [now apply IH |].
      apply (Permutation_Forall (insert_perm x l)).
      constructor; [unfold key_le; lia | exact Hy].
Qed.

Lemma sorted_ordered l : StronglySorted (key_le key) (sorted key l).
Proof.
  induction l as [| x l IH]; simpl.
  - constructor.
  - now apply insert_ordered.
Qed.

Lemma last_of_ordered l d :
  StronglySorted (key_le key) l ->
  forall x, In x l -> key x <= key (last l d).
Proof.
  induction l as [| y l IH]; intros H x Hx; [contradiction |].
  inversion H as [| ? ? Hl Hy]; subst.
  destruct l as [| z l'].
  - destruct Hx as [-> | []]. simpl. lia.
  - change (last (y :: z :: l') d) with (last (z :: l') d).
    destruct Hx as [-> | Hx].
    + rewrite Forall_forall in Hy.
      assert (Hz : key_le key x z) by (apply Hy; now left).
      specialize (IH Hl z (or_introl eq_refl)).
      unfold key_le in Hz. lia.
    + now apply IH.
Qed.

Lemma last_In (l : list A) d : l <> [] -> In (last l d) l.
Proof.
  induction l as [| y l IH]; intros H; [congruence |].
  destruct l as [| z l'].
  - now left.
  - right. apply IH. discriminate.
Qed.

Lemma sorted_not_nil l : l <> [] -> sorted key l <> [].
Proof.
  intros H E. apply H.
  apply Permutation_nil. rewrite <- E. apply Permutation_sym, sorted_perm.
Qed.

End SortedFacts.

Lemma index_last_returns {A} (xs : list A) d w :
  xs <> [] -> index_last xs w = ([], Returned (last xs d)).
Proof.
  induction xs as [| x xs IH]; intros H; [congruence |].
  destruct xs as [| y xs'].
  - reflexivity.
  - change (index_last (x :: y :: xs') w) with (index_last (y :: xs') w).
    change (last (x :: y :: xs') d) with (last (y :: xs') d).
    apply IH. discriminate.
Qed.

Lemma get_cpu_utilization_returned id w dps :
  get_metric_statistics w id = Returned dps ->
  get_cpu_utilization id w = ([metric_call id], Returned (latest_average dps)).
Proof.
  intros H. unfold get_cpu_utilization, bind, request. rewrite H.
  destruct dps as [| d dps']; [reflexivity |].
  rewrite (index_last_returns (sorted Timestamp (d :: dps')) d w).
  - reflexivity.
  - apply sorted_not_nil. discriminate.
Qed.

Lemma get_cpu_utilization_raised id w e :
  get_metric_statistics w id = Raised e ->
  get_cpu_utilization id w = ([metric_call id], Raised e).
Proof.
  intros H. unfold get_cpu_utilization, bind, request. now rewrite H.
Qed.

(** C8: the lookup sends one request; with no datapoint it returns [None],
    and otherwise the [Average] of a datapoint whose [Timestamp] is the
    greatest of all: the last element of the datapoints sorted by
    [Timestamp] belongs to them and no datapoint is more recent. *)
Theorem get_cpu_utilization_latest w id dps :
  get_metric_statistics w id = Returned dps ->
  trace (get_cpu_utilization id) w = [metric_call id] /\
  (dps = [] -> result (get_cpu_utilization id) w = Returned None) /\
  (dps <> [] ->
   exists d,
     In d dps /\
     (forall d', In d' dps -> Timestamp d' <= Timestamp d) /\
     (forall d0, last (sorted Timestamp dps) d0 = d) /\
     result (get_cpu_utilization id) w = Returned (Some (Average d))).
Proof.
  intros H. unfold trace, result.
  rewrite (get_cpu_utilization_returned _ _ _ H). simpl.
  split; [reflexivity |]. split.
  - intros ->. reflexivity.
  - intros Hne. destruct dps as [| d dps']; [congruence |].
    set (l := sorted Timestamp (d :: dps')).
    assert (Hl : l <> []) by (apply sorted_not_nil; discriminate).
    exists (last l d). repeat split.
    + apply (Permutation_in _ (Permutation_sym (sorted_perm Timestamp (d :: dps')))).
      now apply last_In.
    + intros d' Hd'. apply last_of_ordered.
      * apply sorted_ordered.
      * apply (Permutation_in _ (sorted_perm Timestamp (d :: dps'))). exact Hd'.
    + intros d0. destruct l as [| x l']; [congruence |].
      clear. revert x. induction l' as [| y l' IH]; intros x; [reflexivity |].
      change (last (x :: y :: l') d0) with (last (y :: l') d0).
      change (last (x :: y :: l') d) with (last (y :: l') d).
      apply IH.
Qed.

Lemma get_cpu_utilization_latest_witness :
  get_metric_statistics sample_world "i-0a1" = Returned sample_datapoints /\
  result (get_cpu_utilization "i-0a1") sample_world = Returned (Some (PyFloat 3.2)) /\
  trace (get_cpu_utilization "i-0a1") sample_world = [metric_call "i-0a1"].
Proof.
  assert (H : get_metric_statistics sample_world "i-0a1" = Returned sample_datapoints)
    by reflexivity.
  split; [exact H |].
  split; [vm_compute; reflexivity |].
  exact (proj1 (get_cpu_utilization_latest sample_world "i-0a1" sample_datapoints H)).
Defined.

(** ** The branch taken for an instance *)

Lemma evaluate_truthy hour cpu threshold :
  truthy (evaluate hour cpu threshold) = true <->
  evaluate hour cpu threshold <> None.
Proof.
  unfold evaluate.
  destruct ((hour >=? 20) || (hour <? 8)).
  - simpl. split; [discriminate | reflexivity].
  - destruct cpu as [c |]; [destruct (py_lt c threshold) |]; simpl;
      split; intros H; try reflexivity; try discriminate; congruence.
Qed.

Lemma process_instance_run cfg now inst w dps :
  get_metric_statistics w (InstanceId inst) = Returned dps ->
  process_instance cfg now inst w =
    match evaluate (dt_hour now) (latest_average dps) (PyInt (CPU_THRESHOLD cfg)) with
    | Some reason =>
        let (t, r) := stop_record_notify cfg now (InstanceId inst) reason w in
        (metric_call (InstanceId inst) :: t, r)
    | None => ([metric_call (InstanceId inst)], Returned tt)
    end.
Proof.
  intros H. unfold process_instance, bind.
  rewrite (get_cpu_utilization_returned _ _ _ H).
  pose proof (evaluate_truthy (dt_hour now) (latest_average dps)
                (PyInt (CPU_THRESHOLD cfg))) as Ht.
  destruct (evaluate (dt_hour now) (latest_average dps) (PyInt (CPU_THRESHOLD cfg)))
    as [reason |].
  - rewrite (proj2 Ht) by discriminate. reflexivity.
  - reflexivity.
Qed.

Lemma process_instance_raised cfg now inst w e :
  get_metric_statistics w (InstanceId inst) = Raised e ->
  process_instance cfg now inst w = ([metric_call (InstanceId inst)], Raised e).
Proof.
  intros H. unfold process_instance, bind.
  now rewrite (get_cpu_utilization_raised _ _ _ H).
Qed.

Lemma stop_record_notify_acts cfg now id reason w :
  Forall (fun c => is_action c = true) (trace (stop_record_notify cfg now id reason) w) /\
  trace (stop_record_notify cfg now id reason) w <> [].
Proof.
  unfold trace, stop_record_notify, bind, request, ret.
  destruct (DRY_RUN cfg); simpl.
  - destruct (put_item w _ _); simpl; split; try discriminate; repeat constructor.
  - destruct (stop_instances w _); simpl; [| split; try discriminate; repeat constructor].
    destruct (put_item w _ _); simpl; split; try discriminate; repeat constructor.
Qed.

(** C5: the branch that stops, records and notifies is taken exactly when
    the reason is not [None]: the condition [if reason:] holds exactly
    then, and for an instance whose metrics were retrieved the handler sends
    a stop, record or notify request exactly then. *)
Theorem reason_iff_should_stop :
  (forall hour cpu threshold,
     truthy (evaluate hour cpu threshold) = true <->
     evaluate hour cpu threshold <> None) /\
  (forall cfg now inst w dps,
     get_metric_statistics w (InstanceId inst) = Returned dps ->
     (Exists (fun c => is_action c = true) (trace (process_instance cfg now inst) w) <->
      evaluate (dt_hour now) (latest_average dps) (PyInt (CPU_THRESHOLD cfg)) <> None)).
Proof.
  split; [exact evaluate_truthy |].
  intros cfg now inst w dps H. unfold trace.
  rewrite (process_instance_run _ _ _ _ _ H).
  destruct (evaluate (dt_hour now) (latest_average dps) (PyInt (CPU_THRESHOLD cfg)))
    as [reason |].
  - destruct (stop_record_notify_acts cfg now (InstanceId inst) reason w) as [Ha Hn].
    unfold trace in Ha, Hn.
    destruct (stop_record_notify cfg now (InstanceId inst) reason w) as [t r].
    simpl in *. split; [discriminate |]. intros _.
    destruct t as [| c t]; [congruence |].
    apply Exists_cons_tl, Exists_cons_hd. now inversion Ha.
  - simpl. split; [| congruence].
    intros Hex. inversion Hex as [? ? Hc | ? ? Hc]; subst.
    + discriminate.
    + inversion Hc.
Qed.

Lemma reason_iff_should_stop_witness :
  get_metric_statistics sample_world "i-0a1" = Returned sample_datapoints /\
  evaluate 14 (latest_average sample_datapoints) (PyInt 10) = Some "Low CPU: 3.2%" /\
  Exists (fun c => is_action c = true)
    (trace (process_instance sample_config sample_now
              {| InstanceId := "i-0a1" |}) sample_world).
Proof.
  assert (H : get_metric_statistics sample_world "i-0a1" = Returned sample_datapoints)
    by reflexivity.
  split; [exact H |].
  split; [vm_compute; reflexivity |].
  apply (proj2 reason_iff_should_stop sample_config sample_now
           {| InstanceId := "i-0a1" |} sample_world sample_datapoints H).
  vm_compute. discriminate.
Defined.

(** ** Dry run *)




Lemma get_cpu_utilization_trace id w :
  trace (get_cpu_utilization id) w = [metric_call id].
Proof.
  unfold trace.
  destruct (get_metric_statistics w id) as [dps | e] eqn:H.
  - now rewrite (get_cpu_utilization_returned _ _ _ H).
  - now rewrite (get_cpu_utilization_raised _ _ _ H).
Qed.
















(** ** Runs in which every service answers *)

Lemma process_instance_answered cfg now inst w :
  services_answer w ->
  process_instance cfg now inst w = (instance_calls cfg now w inst, Returned tt).
Proof.
  intros (Hm & Hs & Hp & Hn).
  destruct (Hm (InstanceId inst)) as [dps Hd].
  rewrite (process_instance_run _ _ _ _ _ Hd).
  unfold instance_calls, sample. rewrite Hd.
  destruct (evaluate (dt_hour now) (latest_average dps) (PyInt (CPU_THRESHOLD cfg)))
    as [reason |]; [| reflexivity].
  unfold stop_record_notify, bind, request, ret.
  rewrite Hp, Hn. destruct (DRY_RUN cfg); simpl; [reflexivity |].
  now rewrite Hs.
Qed.

Lemma flat_map_nested {A B C} (f : B -> list C) (g : A -> list B) l :
  flat_map (fun x => flat_map f (g x)) l = flat_map f (flat_map g l).
Proof.
  induction l as [| x l IH]; simpl; [reflexivity |].
  now rewrite flat_map_app, IH.
Qed.

Lemma lambda_handler_answered cfg w now rs :
  local_now w (TIMEZONE cfg) = Returned now ->
  describe_instances w instance_filters = Returned rs ->
  services_answer w ->
  lambda_handler cfg w =
    (LocalNow (TIMEZONE cfg) :: DescribeInstances instance_filters ::
       flat_map (instance_calls cfg now w) (all_instances rs),
     Returned ok_response).
Proof.
  intros Hn Hd Hs.
  assert (Hin : forall res,
             trace (for_each (Instances res) (process_instance cfg now)) w =
               flat_map (instance_calls cfg now w) (Instances res) /\
             result (for_each (Instances res) (process_instance cfg now)) w =
               Returned tt).
  { intros res.
    destruct (for_each_returns (Instances res) (process_instance cfg now) w) as [Ht Hr].
    - intros inst _. unfold result. now rewrite process_instance_answered.
    - split; [| exact Hr]. rewrite Ht. apply flat_map_ext.
      intros inst. unfold trace. now rewrite process_instance_answered. }
  destruct (for_each_returns rs
              (fun res => for_each (Instances res) (process_instance cfg now)) w)
    as [Ht Hr].
  { intros res _. apply Hin. }
  rewrite (flat_map_ext _ _ (fun res => proj1 (Hin res))) in Ht.
  rewrite flat_map_nested in Ht.
  unfold lambda_handler, bind at 1, request at 1. rewrite Hn.
  unfold bind at 1, request at 1. rewrite Hd.
  unfold bind at 1.
  unfold trace in Ht. unfold result in Hr.
  destruct (for_each rs _ w) as [t r]. simpl in Ht, Hr. subst t r.
  unfold ret. simpl. now rewrite app_nil_r.
Qed.

Lemma sample_world_answers : services_answer sample_world.
Proof.
  repeat split. intros id. simpl.
  destruct (String.eqb id "i-0a1"); [eexists; reflexivity |].
  destruct (String.eqb id "i-0b2"); eexists; reflexivity.
Qed.

Lemma permuted_world_answers : services_answer permuted_world.
Proof.
  destruct sample_world_answers as (Hm & Hs & Hp & Hn).
  repeat split. exact Hm.
Qed.

(** ** The notification *)

Lemma lambda_handler_notifies cfg w :
  Forall (notifies cfg w) (trace (lambda_handler cfg) w).
Proof.
  enough (H : satisfies (lambda_handler cfg) w (notifies cfg w)
                (fun _ => True) (fun _ => True)) by apply H.
  unfold lambda_handler.
  eapply satisfies_bind with (P := fun _ => True).
  { apply satisfies_request; simpl; auto. }
  intros now Hn _.
  eapply satisfies_bind with (P := fun _ => True).
  { apply satisfies_request; simpl; auto. }
  intros rs Hd _.
  unfold result, request in Hn, Hd. simpl in Hn, Hd.
  eapply satisfies_bind with (P := fun _ => True);
    [| intros; now apply satisfies_ret].
  apply satisfies_for_each. intros res Hres.
  apply satisfies_for_each. intros inst Hinst.
  assert (Hall : In inst (all_instances rs)).
  { apply in_flat_map. exists res. split; assumption. }
  unfold process_instance.
  eapply satisfies_bind with (P := fun _ => True).
  { split; [| now destruct (result _ _)].
    rewrite get_cpu_utilization_trace. repeat constructor. }
  intros cpu Hcpu _. simpl.
  destruct (evaluate (dt_hour now) cpu (PyInt (CPU_THRESHOLD cfg)))
    as [reason |] eqn:He; [| now apply satisfies_ret].
  destruct (truthy (Some reason)); [| now apply satisfies_ret].
  split; [| now destruct (result (stop_record_notify _ _ _ _) w)].
  assert (Hpub : notifies cfg w (publish_call cfg (InstanceId inst) reason)).
  { simpl. exists now, rs, inst, cpu, reason. repeat split; assumption. }
  unfold trace, stop_record_notify, bind, request, ret.
  destruct (DRY_RUN cfg); simpl.
  - destruct (put_item w _ _); simpl; repeat constructor. exact Hpub.
  - destruct (stop_instances w _); simpl; [| repeat constructor].
    destruct (put_item w _ _); simpl; repeat constructor. exact Hpub.
Qed.

(** C7: every notification the handler publishes is, for an instance of the
    run whose reason is [Some reason], the message
    "Stopped " ++ id ++ " due to " ++ reason on the configured topic; and
    when every service answers, each instance of the run with a reason gets
    exactly that notification. *)
Theorem notification_message cfg w :
  Forall (notifies cfg w) (trace (lambda_handler cfg) w) /\
  (forall now rs inst reason,
     local_now w (TIMEZONE cfg) = Returned now ->
     describe_instances w instance_filters = Returned rs ->
     services_answer w ->
     In inst (all_instances rs) ->
     evaluate (dt_hour now) (sample w (InstanceId inst)) (PyInt (CPU_THRESHOLD cfg)) =
       Some reason ->
     In (Publish (SNS_TOPIC_ARN cfg) "EC2 Optimization Alert"
           ("Stopped " ++ InstanceId inst ++ " due to " ++ reason))
        (trace (lambda_handler cfg) w)).
Proof.
  split; [apply lambda_handler_notifies |].
  intros now rs inst reason Hn Hd Hs Hin He.
  unfold trace. rewrite (lambda_handler_answered _ _ _ _ Hn Hd Hs). simpl.
  right; right. apply in_flat_map. exists inst. split; [exact Hin |].
  unfold instance_calls. rewrite He.
  right. apply in_or_app. right. right. left. reflexivity.
Qed.

Lemma notification_message_witness :
  In (Publish "arn:aws:sns:ap-south-1:123456789012:ec2-alerts"
        "EC2 Optimization Alert" "Stopped i-0a1 due to Low CPU: 3.2%")
     (trace (lambda_handler sample_config) sample_world).
Proof.
  refine (proj2 (notification_message sample_config sample_world)
            sample_now sample_reservations {| InstanceId := "i-0a1" |}
            "Low CPU: 3.2%" eq_refl eq_refl sample_world_answers _ _).
  - simpl. left. reflexivity.
  - vm_compute. reflexivity.
Defined.

(** ** Independence of the order of the instances *)

Lemma find_app_split {A} (f : A -> bool) l1 l2 :
  find f (app l1 l2) =
    match find f l1 with
    | Some x => Some x
    | None => find f l2
    end.
Proof.
  induction l1 as [| x l1 IH]; simpl; [reflexivity |].
  now destruct (f x).
Qed.

Lemma recorded_reason_calls cfg now w id insts :
  recorded_reason (flat_map (instance_calls cfg now w) insts) id =
    if listed id insts
    then evaluate (dt_hour now) (sample w id) (PyInt (CPU_THRESHOLD cfg))
    else None.
Proof.
  unfold recorded_reason.
  induction insts as [| inst insts IH]; [reflexivity |].
  cbn [flat_map]. rewrite find_app_split.
  unfold listed in *. cbn [existsb].
  unfold instance_calls at 1.
  destruct (String.eqb (InstanceId inst) id) eqn:Eid.
  - apply String.eqb_eq in Eid. rewrite Eid. simpl orb.
    destruct (evaluate (dt_hour now) (sample w id) (PyInt (CPU_THRESHOLD cfg)))
      as [reason |] eqn:He.
    + destruct (DRY_RUN cfg); simpl; rewrite String.eqb_refl; reflexivity.
    + simpl. rewrite IH. now destruct (existsb _ insts).
  - simpl orb.
    destruct (evaluate (dt_hour now) (sample w (InstanceId inst))
                (PyInt (CPU_THRESHOLD cfg))) as [reason |].
    + destruct (DRY_RUN cfg); simpl; rewrite Eid; exact IH.
    + simpl. exact IH.
Qed.

Lemma listed_perm id l1 l2 :
  Permutation l1 l2 -> listed id l1 = listed id l2.
Proof.
  intros H. unfold listed.
  induction H as [| x l1 l2 H IH | x y l | l1 l2 l3 H1 IH1 H2 IH2]; simpl.
  - reflexivity.
  - now rewrite IH.
  - now rewrite !orb_assoc, (orb_comm (String.eqb (InstanceId y) id)).
  - now rewrite IH1.
Qed.


(** ** The value returned *)

Lemma result_request {A} c (answer : World -> outcome A) w :
  result (request c answer) w = answer w.
Proof. reflexivity. Qed.

Lemma stop_record_notify_raises cfg now id reason w :
  match result (stop_record_notify cfg now id reason) w with
  | Returned _ => True
  | Raised e => world_raises w e
  end.
Proof.
  unfold stop_record_notify.
  rewrite result_bind, result_bind, !result_request.
  assert (Hrest :
    match
      match put_item w (TABLE_NAME cfg) (audit_item id now reason) with
      | Returned _ =>
          publish w (SNS_TOPIC_ARN cfg) "EC2 Optimization Alert"
            (alert_message id reason)
      | Raised e => Raised e
      end
    with
    | Returned _ => True
    | Raised e => world_raises w e
    end).
  { destruct (put_item w _ _) as [| e] eqn:Hp.
    - destruct (publish w _ _ _) as [| e] eqn:Hn; [exact I |].
      do 5 right. eauto.
    - do 4 right. left. eauto. }
  destruct (DRY_RUN cfg); simpl; [exact Hrest |].
  rewrite result_request.
  destruct (stop_instances w _) as [| e] eqn:Hs; [exact Hrest |].
  do 3 right. left. eauto.
Qed.

(** C10: the value of the handler does not depend on what it did: if it
    returns, it returns status 200 with body "Optimization complete", and an
    exception it raises is one a service raised; so when every service
    answers it returns exactly that response. *)
Theorem lambda_handler_response cfg w :
  match result (lambda_handler cfg) w with
  | Returned r => r = {| statusCode := 200; body := "Optimization complete" |}
  | Raised e => world_raises w e
  end /\
  (forall now rs,
     local_now w (TIMEZONE cfg) = Returned now ->
     describe_instances w instance_filters = Returned rs ->
     services_answer w ->
     result (lambda_handler cfg) w =
       Returned {| statusCode := 200; body := "Optimization complete" |}).
Proof.
  split.
  - enough (H : satisfies (lambda_handler cfg) w (fun _ => True)
                  (fun r => r = ok_response) (world_raises w)) by apply H.
    unfold lambda_handler.
    eapply satisfies_bind with (P := fun _ => True).
    { apply satisfies_request; auto. intros e He. left. eauto. }
    intros now _ _.
    eapply satisfies_bind with (P := fun _ => True).
    { apply satisfies_request; auto. intros e He. right; left. eauto. }
    intros rs _ _.
    eapply satisfies_bind with (P := fun _ => True);
      [| intros; now apply satisfies_ret].
    apply satisfies_for_each. intros res _.
    apply satisfies_for_each. intros inst _.
    split; [apply Forall_forall; auto |].
    unfold result.
    destruct (get_metric_statistics w (InstanceId inst)) as [dps | e] eqn:Hm.
    + rewrite (process_instance_run _ _ _ _ _ Hm).
      destruct (evaluate _ _ _) as [reason |]; [| exact I].
      pose proof (stop_record_notify_raises cfg now (InstanceId inst) reason w) as H.
      unfold result in H.
      destruct (stop_record_notify cfg now (InstanceId inst) reason w). exact H.
    + rewrite (process_instance_raised _ _ _ _ _ Hm). simpl.
      right; right; left. eauto.
  - intros now rs Hn Hd Hs. unfold result.
    now rewrite (lambda_handler_answered _ _ _ _ Hn Hd Hs).
Qed.

Lemma lambda_handler_response_witness :
  result (lambda_handler sample_config) sample_world =
    Returned {| statusCode := 200; body := "Optimization complete" |}.
Proof.
  exact (proj2 (lambda_handler_response sample_config sample_world)
           sample_now sample_reservations eq_refl eq_refl sample_world_answers).
Defined.

(** * Further properties of the policy and of the lookup *)

(** ** The policy on every integer hour *)

(** X1: The reason is "After hours" exactly when the hour is 20 or more, or
    less than 8, on every integer and not only on 0..23 (lines 54-55). *)
Theorem after_hours_iff hour cpu threshold :
  evaluate hour cpu threshold = Some "After hours" <-> (20 <= hour \/ hour < 8).
Proof.
  split; [| apply evaluate_after_hours].
  unfold evaluate.
  destruct (hour >=? 20) eqn:H20.
  - intros _. left. now apply Z.geb_le.
  - destruct (hour <? 8) eqn:H8.
    + intros _. right. now apply Z.ltb_lt.
    + simpl. destruct cpu as [c |]; [| discriminate].
      destruct (py_lt c threshold); discriminate.
Qed.

Lemma ext_lt_trans a b c :
  ext_lt a b = true -> ext_lt b c = true -> ext_lt a c = true.
Proof.
  destruct a as [| | p |], b as [| | q |], c as [| | r |];
    simpl; try discriminate; try reflexivity.
  intros H1 H2. apply Qltb_lt in H1, H2. apply Qltb_lt.
  exact (Qlt_trans _ _ _ H1 H2).
Qed.

Lemma ext_lt_int_le a t1 t2 :
  t1 <= t2 ->
  ext_lt a (Finite (inject_Z t1)) = true ->
  ext_lt a (Finite (inject_Z t2)) = true.
Proof.
  intros Hle. destruct a as [| | p |]; simpl; try discriminate; try reflexivity.
  intros H. apply Qltb_lt in H. apply Qltb_lt.
  apply Qlt_le_trans with (inject_Z t1); [exact H |].
  now rewrite <- Zle_Qle.
Qed.

(** X2: Raising the threshold never cancels a stop, and leaves its reason as it
    is: the reason does not mention the threshold (lines 54-57). *)
Theorem raising_threshold_keeps_reason hour cpu t1 t2 reason :
  t1 <= t2 ->
  evaluate hour cpu (PyInt t1) = Some reason ->
  evaluate hour cpu (PyInt t2) = Some reason.
Proof.
  intros Hle. unfold evaluate.
  destruct ((hour >=? 20) || (hour <? 8)); [auto |].
  destruct cpu as [c |]; [| discriminate].
  unfold py_lt. simpl py_value.
  destruct (ext_lt (py_value c) (Finite (inject_Z t1))) eqn:H1; [| discriminate].
  now rewrite (ext_lt_int_le _ _ _ Hle H1).
Qed.

Lemma raising_threshold_keeps_reason_witness :
  evaluate 14 (Some (PyFloat 3.2)) (PyInt 10) = Some "Low CPU: 3.2%" /\
  evaluate 14 (Some (PyFloat 3.2)) (PyInt 25) = Some "Low CPU: 3.2%".
Proof.
  assert (H : evaluate 14 (Some (PyFloat 3.2)) (PyInt 10) = Some "Low CPU: 3.2%")
    by (vm_compute; reflexivity).
  split; [exact H |].
  apply (raising_threshold_keeps_reason 14 (Some (PyFloat 3.2)) 10 25); [lia | exact H].
Defined.

(** X3: An instance whose sample is lower than that of an instance the policy
    stops is stopped too, at the same hour and threshold (lines 54-57). *)
Theorem lower_sample_still_stops hour c c' threshold :
  py_lt c' c = true ->
  evaluate hour (Some c) threshold <> None ->
  evaluate hour (Some c') threshold <> None.
Proof.
  intros Hlt. unfold evaluate.
  destruct ((hour >=? 20) || (hour <? 8)); [auto |].
  destruct (py_lt c threshold) eqn:H; [| congruence].
  intros _. unfold py_lt in *.
  now rewrite (ext_lt_trans _ _ _ Hlt H).
Qed.

Lemma lower_sample_still_stops_witness :
  py_lt (PyFloat 3.2) (PyInt 7) = true /\
  evaluate 14 (Some (PyInt 7)) (PyInt 10) <> None /\
  evaluate 14 (Some (PyFloat 3.2)) (PyInt 10) <> None.
Proof.
  assert (L : py_lt (PyFloat 3.2) (PyInt 7) = true) by (vm_compute; reflexivity).
  assert (H : evaluate 14 (Some (PyInt 7)) (PyInt 10) <> None)
    by (vm_compute; discriminate).
  split; [exact L |]. split; [exact H |].
  exact (lower_sample_still_stops 14 (PyInt 7) (PyFloat 3.2) (PyInt 10) L H).
Defined.

(** ** The lookup *)

(** X4: [get_cpu_utilization] raises exactly when its CloudWatch request does,
    and then the same exception: [[-1]] is never applied to an empty list
    (lines 30-34). *)
Theorem lookup_raises_iff_request_raises id w e :
  result (get_cpu_utilization id) w = Raised e <->
  get_metric_statistics w id = Raised e.
Proof.
  unfold result.
  destruct (get_metric_statistics w id) as [dps | e'] eqn:H.
  - rewrite (get_cpu_utilization_returned _ _ _ H). simpl.
    split; discriminate.
  - rewrite (get_cpu_utilization_raised _ _ _ H). simpl.
    split; intros E; injection E as ->; reflexivity.
Qed.

Section LastOfSorted.

Context {A : Type} (key : A -> Z).

Lemma last_insert x s d :
  StronglySorted (key_le key) s ->
  last (insert key x s) d =
    match s with
    | [] => x
    | _ => if key x <=? key (last s d) then last s d else x
    end.
Proof.
  induction s as [| y s IH]; intros Hs; [reflexivity |].
  inversion Hs as [| ? ? Hs' Hy]; subst.
  simpl insert. destruct (key x <=? key y) eqn:C.
  - apply Z.leb_le in C.
    assert (Hl : key y <= key (last (y :: s) d))
      by (apply (last_of_ordered key); [exact Hs | now left]).
    replace (key x <=? key (last (y :: s) d)) with true
      by (symmetry; apply Z.leb_le; lia).
    reflexivity.
  - apply Z.leb_gt in C. specialize (IH Hs').
    destruct s as [| z s'].
    + simpl. replace (key x <=? key y) with false
        by (symmetry; apply Z.leb_gt; lia).
      reflexivity.
    + change (last (y :: z :: s') d) with (last (z :: s') d).
      rewrite <- IH.
      destruct (insert key x (z :: s')) as [| u l] eqn:E; [| reflexivity].
      exfalso. simpl in E. destruct (key x <=? key z); discriminate.
Qed.

Lemma sorted_cons_not_nil x l : sorted key (x :: l) <> [].
Proof. apply sorted_not_nil. discriminate. Qed.

(** The last element of the sorted list is the right-most element of
    greatest key. *)
Lemma last_sorted_rightmost l1 d l2 d0 :
  (forall x, In x l1 -> key x <= key d) ->
  (forall x, In x l2 -> key x < key d) ->
  last (sorted key (app l1 (d :: l2))) d0 = d.
Proof.
  intros H1 H2. induction l1 as [| x l1 IH].
  - simpl app. simpl sorted.
    rewrite (last_insert _ _ _ (sorted_ordered key l2)).
    destruct (sorted key l2) as [| y s] eqn:E; [reflexivity |].
    assert (Hin : In (last (y :: s) d0) l2).
    { apply (Permutation_in _ (Permutation_sym (sorted_perm key l2))).
      rewrite E. apply last_In. discriminate. }
    specialize (H2 _ Hin).
    replace (key d <=? key (last (y :: s) d0)) with false
      by (symmetry; apply Z.leb_gt; lia).
    reflexivity.
  - simpl app. simpl sorted.
    rewrite (last_insert _ _ _ (sorted_ordered key _)).
    rewrite IH by (intros y Hy; apply H1; now right).
    destruct (sorted key (app l1 (d :: l2))) as [| y s] eqn:E.
    + exfalso. destruct l1; exact (sorted_cons_not_nil _ _ E).
    + replace (key x <=? key d) with true
        by (symmetry; apply Z.leb_le; apply H1; now left).
      reflexivity.
Qed.

End LastOfSorted.

(** X5: Among the datapoints of greatest [Timestamp] the lookup returns the
    [Average] of the one listed last: [sorted] is stable and [[-1]] takes
    the end (line 33). *)
Theorem lookup_latest_last_listed id w l1 d l2 :
  get_metric_statistics w id = Returned (app l1 (d :: l2)) ->
  (forall x, In x l1 -> Timestamp x <= Timestamp d) ->
  (forall x, In x l2 -> Timestamp x < Timestamp d) ->
  result (get_cpu_utilization id) w = Returned (Some (Average d)).
Proof.
  intros H H1 H2. unfold result.
  rewrite (get_cpu_utilization_returned _ _ _ H). simpl.
  unfold latest_average.
  destruct (app l1 (d :: l2)) as [| d0 l] eqn:E.
  - destruct l1; discriminate.
  - rewrite <- E. now rewrite (last_sorted_rightmost Timestamp l1 d l2 d0 H1 H2).
Qed.

Lemma lookup_latest_last_listed_witness :
  result (get_cpu_utilization "i-0a1") tied_world = Returned (Some (PyFloat 7.5)).
Proof.
  apply (lookup_latest_last_listed "i-0a1" tied_world
           [ {| Timestamp := 1714552800; Average := PyFloat 5 |} ]
           {| Timestamp := 1714552800; Average := PyFloat 7.5 |}
           [ {| Timestamp := 1714552500; Average := PyFloat 1 |} ]).
  - reflexivity.
  - intros x [<- | []]. simpl. lia.
  - intros x [<- | []]. simpl. lia.
Defined.

Lemma latest_average_perm dps dps' :
  Permutation dps dps' ->
  NoDup (map Timestamp dps) ->
  latest_average dps = latest_average dps'.
Proof.
  intros Hp Hn.
  destruct dps as [| d0 l].
  - apply Permutation_nil in Hp. now subst.
  - set (dps := d0 :: l) in *.
    set (d := last (sorted Timestamp dps) d0).
    assert (Hne : sorted Timestamp dps <> []) by (apply sorted_not_nil; discriminate).
    assert (Hd : In d dps).
    { apply (Permutation_in _ (Permutation_sym (sorted_perm Timestamp dps))).
      now apply last_In. }
    assert (Hmax : forall x, In x dps -> Timestamp x <= Timestamp d).
    { intros x Hx. apply last_of_ordered; [apply sorted_ordered |].
      apply (Permutation_in _ (sorted_perm Timestamp dps)). exact Hx. }
    assert (Hd' : In d dps') by (apply (Permutation_in _ Hp); exact Hd).
    destruct (in_split _ _ Hd') as (l1 & l2 & E).
    assert (Hn' : NoDup (map Timestamp dps')).
    { apply (Permutation_NoDup (Permutation_map Timestamp Hp)). exact Hn. }
    rewrite E, map_app in Hn'. simpl in Hn'.
    apply NoDup_remove_2 in Hn'.
    assert (Hlt : forall x, In x (app l1 l2) -> Timestamp x < Timestamp d).
    { intros x Hx.
      assert (Hx' : In x dps).
      { apply (Permutation_in _ (Permutation_sym Hp)). rewrite E.
        apply in_app_or in Hx. apply in_or_app.
        destruct Hx; [now left | right; now right]. }
      specialize (Hmax x Hx').
      assert (Timestamp x <> Timestamp d); [| lia].
      intros Heq. apply Hn'. rewrite <- Heq, <- map_app. now apply in_map. }
    change (latest_average dps) with (Some (Average d)).
    unfold latest_average. rewrite E.
    destruct (app l1 (d :: l2)) as [| d1 l'] eqn:E'.
    + destruct l1; discriminate.
    + rewrite <- E'. rewrite (last_sorted_rightmost Timestamp l1 d l2 d1).
      * reflexivity.
      * intros x Hx. apply Z.lt_le_incl, Hlt, in_or_app. now left.
      * intros x Hx. apply Hlt, in_or_app. now right.
Qed.

(** X6: When the datapoints have distinct [Timestamp]s the lookup does not
    depend on the order in which CloudWatch lists them (lines 30-34). *)
Theorem lookup_independent_of_order id w w' dps dps' :
  get_metric_statistics w id = Returned dps ->
  get_metric_statistics w' id = Returned dps' ->
  Permutation dps dps' ->
  NoDup (map Timestamp dps) ->
  result (get_cpu_utilization id) w = result (get_cpu_utilization id) w'.
Proof.
  intros H H' Hp Hn. unfold result.
  rewrite (get_cpu_utilization_returned _ _ _ H),
          (get_cpu_utilization_returned _ _ _ H').
  simpl. now rewrite (latest_average_perm _ _ Hp Hn).
Qed.

Lemma lookup_independent_of_order_witness :
  result (get_cpu_utilization "i-0a1") sample_world =
    result (get_cpu_utilization "i-0a1") shuffled_world /\
  result (get_cpu_utilization "i-0a1") shuffled_world = Returned (Some (PyFloat 3.2)).
Proof.
  split; [| vm_compute; reflexivity].
  apply (lookup_independent_of_order "i-0a1" sample_world shuffled_world
           sample_datapoints (rev sample_datapoints)).
  - reflexivity.
  - reflexivity.
  - apply Permutation_rev.
  - simpl. repeat constructor; simpl; intuition discriminate.
Defined.

(** * Further properties of the handler *)

(** ** What is stopped and what is recorded *)

(** To show that every request of a run is in [T], it is enough to look at
    the requests of the branch taken for an instance with a reason. *)
Lemma lambda_handler_calls cfg w (T : Call -> Prop) :
  T (LocalNow (TIMEZONE cfg)) ->
  T (DescribeInstances instance_filters) ->
  (forall inst, T (metric_call (InstanceId inst))) ->
  (forall now inst reason,
     decided cfg w now inst reason ->
     Forall T (trace (stop_record_notify cfg now (InstanceId inst) reason) w)) ->
  Forall T (trace (lambda_handler cfg) w).
Proof.
  intros Hnow Hdesc Hmetric Hbranch.
  enough (H : satisfies (lambda_handler cfg) w T (fun _ => True) (fun _ => True))
    by apply H.
  unfold lambda_handler.
  eapply satisfies_bind with (P := fun _ => True).
  { apply satisfies_request; auto. }
  intros now Hn _.
  eapply satisfies_bind with (P := fun _ => True).
  { apply satisfies_request; auto. }
  intros rs Hd _.
  unfold result, request in Hn, Hd. simpl in Hn, Hd.
  eapply satisfies_bind with (P := fun _ => True);
    [| intros; now apply satisfies_ret].
  apply satisfies_for_each. intros res Hres.
  apply satisfies_for_each. intros inst Hinst.
  unfold process_instance.
  eapply satisfies_bind with (P := fun _ => True).
  { split; [| now destruct (result _ _)].
    rewrite get_cpu_utilization_trace. repeat constructor. apply Hmetric. }
  intros cpu Hcpu _. simpl.
  destruct (evaluate (dt_hour now) cpu (PyInt (CPU_THRESHOLD cfg)))
    as [reason |] eqn:He; [| now apply satisfies_ret].
  destruct (truthy (Some reason)); [| now apply satisfies_ret].
  split; [| now destruct (result (stop_record_notify _ _ _ _) w)].
  apply Hbranch. exists rs, cpu. repeat split; try assumption.
  apply in_flat_map. exists res. split; assumption.
Qed.

(** The requests of the branch: a stop outside dry runs, the record, the
    notification. *)
Lemma stop_record_notify_calls cfg now id reason w :
  Forall (fun c =>
            (c = StopInstances [id] /\ DRY_RUN cfg = false) \/
            c = put_call cfg now id reason \/
            c = publish_call cfg id reason)
    (trace (stop_record_notify cfg now id reason) w).
Proof.
  unfold trace, stop_record_notify, bind, request, ret.
  destruct (DRY_RUN cfg) eqn:Hd; simpl.
  - destruct (put_item w _ _); simpl;
      repeat (apply Forall_cons || apply Forall_nil); auto.
  - destruct (stop_instances w _); simpl;
      [| repeat (apply Forall_cons || apply Forall_nil); auto].
    destruct (put_item w _ _); simpl;
      repeat (apply Forall_cons || apply Forall_nil); auto.
Qed.

(** X7: The handler never stops an instance without a reason: every stop
    request of a run, whether or not the run completes, names exactly one
    instance, which the DescribeInstances answer lists and to which the
    policy gives a reason, and the run is not a dry run (lines 59-61). *)
Theorem stops_only_decided_instances cfg w :
  Forall (stops_decided cfg w) (trace (lambda_handler cfg) w).
Proof.
  apply lambda_handler_calls; try exact I.
  - intros inst. exact I.
  - intros now inst reason Hdec.
    eapply Forall_impl; [| apply stop_record_notify_calls].
    intros c [[-> Hd] | [-> | ->]]; simpl; auto.
    split; [exact Hd |]. exists now, inst, reason. split; [exact Hdec | reflexivity].
Qed.


(** ** Exceptions *)

Lemma ends_ret {A} (a : A) w : ends_at_first_exception (ret a) w.
Proof. constructor. Qed.

Lemma ends_request {A} c (answer : World -> outcome A) w :
  (forall e, raised_by w c e <-> answer w = Raised e) ->
  ends_at_first_exception (request c answer) w.
Proof.
  intros H. unfold ends_at_first_exception, result, trace, request. simpl.
  destruct (answer w) as [a | e] eqn:E.
  - repeat constructor. intros e He. apply H in He. discriminate.
  - exists [], c. repeat split; [constructor | now apply H].
Qed.

Lemma ends_bind {A B} (m : M A) (f : A -> M B) w :
  ends_at_first_exception m w ->
  (forall a, result m w = Returned a -> ends_at_first_exception (f a) w) ->
  ends_at_first_exception (bind m f) w.
Proof.
  unfold ends_at_first_exception. intros Hm Hf.
  rewrite trace_bind, result_bind.
  destruct (result m w) as [a | e] eqn:R.
  - specialize (Hf a eq_refl).
    destruct (result (f a) w) as [b | e].
    + apply Forall_app. split; assumption.
    + destruct Hf as (t & c & Ht & Ha & Hr).
      exists (app (trace m w) t), c. repeat split.
      * rewrite Ht. apply app_assoc.
      * apply Forall_app. split; assumption.
      * exact Hr.
  - rewrite app_nil_r. exact Hm.
Qed.

Lemma ends_for_each {A} (xs : list A) body w :
  (forall x, In x xs -> ends_at_first_exception (body x) w) ->
  ends_at_first_exception (for_each xs body) w.
Proof.
  induction xs as [| x xs IH]; intros H.
  - apply ends_ret.
  - simpl. apply ends_bind.
    + apply H. now left.
    + intros _ _. apply IH. intros y Hy. apply H. now right.
Qed.

Lemma ends_get_cpu_utilization id w :
  ends_at_first_exception (get_cpu_utilization id) w.
Proof.
  unfold ends_at_first_exception, result, trace.
  destruct (get_metric_statistics w id) as [dps | e] eqn:H.
  - rewrite (get_cpu_utilization_returned _ _ _ H). simpl.
    repeat constructor. intros e He. simpl in He. congruence.
  - rewrite (get_cpu_utilization_raised _ _ _ H). simpl.
    exists [], (metric_call id). repeat split; [constructor | exact H].
Qed.

(** X9: The first exception ends the run: the handler catches nothing and
    retries nothing. When it raises [e], the last request it sent is the
    one the world answered with [e], every earlier request was answered,
    and nothing is sent afterwards; when it returns, every request was
    answered (lines 36-75). *)
Theorem run_ends_at_first_exception cfg w :
  ends_at_first_exception (lambda_handler cfg) w.
Proof.
  unfold lambda_handler.
  apply ends_bind; [apply ends_request; reflexivity |]. intros now _.
  apply ends_bind; [apply ends_request; reflexivity |]. intros rs _.
  apply ends_bind; [| intros; apply ends_ret].
  apply ends_for_each. intros res _.
  apply ends_for_each. intros inst _.
  unfold process_instance.
  apply ends_bind; [apply ends_get_cpu_utilization |]. intros cpu _. simpl.
  destruct (evaluate (dt_hour now) cpu (PyInt (CPU_THRESHOLD cfg))) as [reason |];
    [| apply ends_ret].
  destruct (truthy (Some reason)); [| apply ends_ret].
  unfold stop_record_notify.
  apply ends_bind.
  - destruct (negb (DRY_RUN cfg)); [apply ends_request; reflexivity | apply ends_ret].
  - intros _ _. apply ends_bind.
    + apply ends_request; reflexivity.
    + intros _ _. apply ends_request; reflexivity.
Qed.

(** A run whose second metrics request raises: the third instance is never
    looked up. *)
Example failing_run :
  lambda_handler sample_config failing_world =
    ([ LocalNow "Asia/Kolkata";
       DescribeInstances instance_filters;
       metric_call "i-0a1";
       StopInstances ["i-0a1"];
       put_call sample_config sample_now "i-0a1" "Low CPU: 3.2%";
       publish_call sample_config "i-0a1" "Low CPU: 3.2%";
       metric_call "i-0b2" ],
     Raised (ClientError "GetMetricStatistics")).
Proof. vm_compute. reflexivity. Qed.

(** ** Runs without instances *)

Lemma for_each_no_instance (rs : list Reservation) (body : Instance -> M unit) w :
  all_instances rs = [] ->
  for_each rs (fun res => for_each (Instances res) body) w = ([], Returned tt).
Proof.
  induction rs as [| res rs IH]; intros H; [reflexivity |].
  unfold all_instances in H. simpl in H.
  apply app_eq_nil in H. destruct H as [Hres Hrs].
  simpl. unfold bind. rewrite Hres. simpl.
  now rewrite (IH Hrs).
Qed.

(** X10: When the DescribeInstances answer lists no instance (no reservation,
    or reservations without instances) the handler sends nothing after
    that request and returns its response (lines 48-49, 75). *)
Theorem no_instance_no_request cfg w now rs :
  local_now w (TIMEZONE cfg) = Returned now ->
  describe_instances w instance_filters = Returned rs ->
  all_instances rs = [] ->
  lambda_handler cfg w =
    ([LocalNow (TIMEZONE cfg); DescribeInstances instance_filters],
     Returned {| statusCode := 200; body := "Optimization complete" |}).
Proof.
  intros Hn Hd He.
  unfold lambda_handler, bind at 1, request at 1. rewrite Hn.
  unfold bind at 1, request at 1. rewrite Hd.
  unfold bind. rewrite (for_each_no_instance rs _ w He). reflexivity.
Qed.

Lemma no_instance_no_request_witness :
  lambda_handler sample_config idle_world =
    ([LocalNow "Asia/Kolkata"; DescribeInstances instance_filters],
     Returned {| statusCode := 200; body := "Optimization complete" |}).
Proof.
  exact (no_instance_no_request sample_config idle_world sample_now
           [ {| Instances := [] |} ] eq_refl eq_refl eq_refl).
Defined.

(** ** Runs in which every service answers, request by request *)

Lemma stops_of_calls cfg now w insts :
  filter is_stop (flat_map (instance_calls cfg now w) insts) =
    if DRY_RUN cfg then []
    else map (fun inst => StopInstances [InstanceId inst])
           (filter (has_reason cfg now w) insts).
Proof.
  induction insts as [| inst insts IH].
  - now destruct (DRY_RUN cfg).
  - cbn [flat_map filter]. rewrite filter_app, IH.
    unfold instance_calls at 1, has_reason at 2.
    destruct (evaluate (dt_hour now) (sample w (InstanceId inst))
                (PyInt (CPU_THRESHOLD cfg))) as [reason |];
      destruct (DRY_RUN cfg); reflexivity.
Qed.


(** X11: When every service answers, the stop requests of a run are, in the
    order of the listing, one request for each listed instance to which the
    policy gives a reason, and none in a dry run (lines 48-61). *)
Theorem stops_exactly_decided_instances cfg w now rs :
  local_now w (TIMEZONE cfg) = Returned now ->
  describe_instances w instance_filters = Returned rs ->
  services_answer w ->
  filter is_stop (trace (lambda_handler cfg) w) =
    if DRY_RUN cfg then []
    else map (fun inst => StopInstances [InstanceId inst])
           (filter (has_reason cfg now w) (all_instances rs)).
Proof.
  intros Hn Hd Hs. unfold trace.
  rewrite (lambda_handler_answered _ _ _ _ Hn Hd Hs). simpl.
  apply stops_of_calls.
Qed.

Lemma stops_exactly_decided_instances_witness :
  filter is_stop (trace (lambda_handler sample_config) sample_world) =
    [StopInstances ["i-0a1"]].
Proof.
  exact (stops_exactly_decided_instances sample_config sample_world sample_now
           sample_reservations eq_refl eq_refl sample_world_answers).
Defined.



Lemma night_world_answers : services_answer night_world.
Proof.
  destruct sample_world_answers as (Hm & Hs & Hp & Hn).
  repeat split. exact Hm.
Qed.

(** X13: After hours, when every service answers, every listed instance is
    looked up, stopped (outside dry runs), recorded and notified with the
    reason "After hours", whatever its metrics are (lines 48-73). *)
Theorem after_hours_stops_every_instance cfg w now rs :
  local_now w (TIMEZONE cfg) = Returned now ->
  describe_instances w instance_filters = Returned rs ->
  services_answer w ->
  20 <= dt_hour now \/ dt_hour now < 8 ->
  trace (lambda_handler cfg) w =
    LocalNow (TIMEZONE cfg) :: DescribeInstances instance_filters ::
    flat_map
      (fun inst =>
         metric_call (InstanceId inst) ::
         app (if DRY_RUN cfg then [] else [StopInstances [InstanceId inst]])
           [put_call cfg now (InstanceId inst) "After hours";
            publish_call cfg (InstanceId inst) "After hours"])
      (all_instances rs).
Proof.
  intros Hn Hd Hs Hh. unfold trace.
  rewrite (lambda_handler_answered _ _ _ _ Hn Hd Hs). simpl.
  do 2 f_equal. apply flat_map_ext. intros inst.
  unfold instance_calls. now rewrite (evaluate_after_hours _ _ _ Hh).
Qed.

Lemma after_hours_stops_every_instance_witness :
  filter is_stop (trace (lambda_handler sample_config) night_world) =
    [StopInstances ["i-0a1"]; StopInstances ["i-0b2"]; StopInstances ["i-0c3"]].
Proof.
  rewrite (after_hours_stops_every_instance sample_config night_world night_now
             sample_reservations eq_refl eq_refl night_world_answers).
  - reflexivity.
  - left. simpl. lia.
Defined.

(** * Properties of the configuration *)

Lemma lower_ascii_t c : lower_ascii c = "t"%char <-> either_case "t" "T" c.
Proof.
  unfold either_case.
  destruct c as [[|] [|] [|] [|] [|] [|] [|] [|]]; vm_compute;
    split; intros H; try discriminate; auto;
    destruct H; discriminate.
Qed.

Lemma lower_ascii_r c : lower_ascii c = "r"%char <-> either_case "r" "R" c.
Proof.
  unfold either_case.
  destruct c as [[|] [|] [|] [|] [|] [|] [|] [|]]; vm_compute;
    split; intros H; try discriminate; auto;
    destruct H; discriminate.
Qed.

Lemma lower_ascii_u c : lower_ascii c = "u"%char <-> either_case "u" "U" c.
Proof.
  unfold either_case.
  destruct c as [[|] [|] [|] [|] [|] [|] [|] [|]]; vm_compute;
    split; intros H; try discriminate; auto;
    destruct H; discriminate.
Qed.

Lemma lower_ascii_e c : lower_ascii c = "e"%char <-> either_case "e" "E" c.
Proof.
  unfold either_case.
  destruct c as [[|] [|] [|] [|] [|] [|] [|] [|]]; vm_compute;
    split; intros H; try discriminate; auto;
    destruct H; discriminate.
Qed.

Lemma lower_is_true v :
  String.eqb (lower v) "true" = true <->
  exists a b c d,
    v = String a (String b (String c (String d EmptyString))) /\
    either_case "t" "T" a /\ either_case "r" "R" b /\
    either_case "u" "U" c /\ either_case "e" "E" d.
Proof.
  rewrite String.eqb_eq. split.
  - intros H.
    destruct v as [| a [| b [| c [| d [| x v]]]]]; try discriminate H.
    simpl in H. injection H as Ha Hb Hc Hd.
    exists a, b, c, d. split; [reflexivity |].
    now rewrite <- lower_ascii_t, <- lower_ascii_r, <- lower_ascii_u, <- lower_ascii_e.
  - intros (a & b & c & d & -> & Ha & Hb & Hc & Hd).
    apply lower_ascii_t in Ha. apply lower_ascii_r in Hb.
    apply lower_ascii_u in Hc. apply lower_ascii_e in Hd.
    simpl. now rewrite Ha, Hb, Hc, Hd.
Qed.

Section ImportFacts.

Variable int : string -> option Z.

Lemma load_config_cases env :
  match load_config int env with
  | inr cfg =>
      first_unset env settings = None /\
      env "TABLE_NAME" = Some (TABLE_NAME cfg) /\
      env "SNS_TOPIC_ARN" = Some (SNS_TOPIC_ARN cfg) /\
      (exists v, env "DRY_RUN" = Some v /\
                 DRY_RUN cfg = String.eqb (lower v) "true") /\
      (exists v, env "CPU_THRESHOLD" = Some v /\ int v = Some (CPU_THRESHOLD cfg)) /\
      env "TIMEZONE" = Some (TIMEZONE cfg)
  | inl (KeyError k) => first_unset env settings = Some k
  | inl (ValueError text) =>
      env "CPU_THRESHOLD" = Some text /\ int text = None
  end.
Proof.
  unfold load_config, getenv, settings, first_unset.
  destruct (env "TABLE_NAME") as [v1 |]; [| reflexivity].
  destruct (env "SNS_TOPIC_ARN") as [v2 |]; [| reflexivity].
  destruct (env "DRY_RUN") as [v3 |]; [| reflexivity].
  destruct (env "CPU_THRESHOLD") as [v4 |]; [| reflexivity].
  destruct (int v4) as [t |] eqn:Hint; [| split; [reflexivity | exact Hint]].
  destruct (env "TIMEZONE") as [v5 |]; [| reflexivity].
  simpl. repeat split; eauto.
Qed.

(** X14: The module imports exactly when the five variables are set and [int]
    accepts CPU_THRESHOLD. Otherwise a [KeyError] names the first variable,
    in reading order, that is not set, and a [ValueError] comes from
    CPU_THRESHOLD alone, before TIMEZONE is read (lines 11-15). *)
Theorem import_succeeds_iff env :
  ((exists cfg, load_config int env = inr cfg) <->
   first_unset env settings = None /\
   exists v t, env "CPU_THRESHOLD" = Some v /\ int v = Some t) /\
  (forall k, load_config int env = inl (KeyError k) ->
             first_unset env settings = Some k /\ In k settings /\ env k = None) /\
  (forall text, load_config int env = inl (ValueError text) ->
                env "CPU_THRESHOLD" = Some text /\ int text = None).
Proof.
  pose proof (load_config_cases env) as H.
  split; [| split].
  - split.
    + intros [cfg E]. rewrite E in H.
      destruct H as (Hu & _ & _ & _ & (v & Hv & Hi) & _).
      split; [exact Hu |]. now exists v, (CPU_THRESHOLD cfg).
    + intros (Hu & v & t & Hv & Hi).
      destruct (load_config int env) as [[k | text] | cfg].
      * congruence.
      * destruct H as [Hv' Hi']. congruence.
      * now exists cfg.
  - intros k E. rewrite E in H. split; [exact H |].
    unfold settings, first_unset in H.
    repeat match type of H with
           | match env ?key with _ => _ end = _ =>
               destruct (env key) eqn:?
           end; try discriminate; injection H as <-; simpl; auto 10.
  - intros text E. now rewrite E in H.
Qed.

(** X15: The dry-run flag is set exactly when DRY_RUN is the word "true" in any
    mix of cases: four characters, nothing before or after. Any other
    value, such as "1", "yes" or " true", leaves it unset, and instances
    are then really stopped (line 13). *)
Theorem dry_run_only_for_true env cfg :
  load_config int env = inr cfg ->
  (DRY_RUN cfg = true <->
   exists a b c d,
     env "DRY_RUN" = Some (String a (String b (String c (String d EmptyString)))) /\
     either_case "t" "T" a /\ either_case "r" "R" b /\
     either_case "u" "U" c /\ either_case "e" "E" d).
Proof.
  intros E. pose proof (load_config_cases env) as H. rewrite E in H.
  destruct H as (_ & _ & _ & (v & Hv & Hd) & _).
  rewrite Hd, lower_is_true. split.
  - intros (a & b & c & d & -> & Hrest). now exists a, b, c, d.
  - intros (a & b & c & d & Ha & Hrest). exists a, b, c, d.
    split; [congruence | exact Hrest].
Qed.

End ImportFacts.

Lemma dry_run_only_for_true_witness :
  load_config int_of_digits sample_environ =
    inr (set_dry_run true sample_config) /\
  exists a b c d,
    sample_environ "DRY_RUN" =
      Some (String a (String b (String c (String d EmptyString)))) /\
    either_case "t" "T" a /\ either_case "r" "R" b /\
    either_case "u" "U" c /\ either_case "e" "E" d.
Proof.
  assert (E : load_config int_of_digits sample_environ =
              inr (set_dry_run true sample_config)) by (vm_compute; reflexivity).
  split; [exact E |].
  exact (proj1 (dry_run_only_for_true int_of_digits sample_environ
                  (set_dry_run true sample_config) E) eq_refl).
Defined.

Lemma import_succeeds_iff_witness :
  first_unset (env_of [("TABLE_NAME", "t"); ("DRY_RUN", "false")]) settings =
    Some "SNS_TOPIC_ARN".
Proof.
  apply (proj1 (proj2 (import_succeeds_iff int_of_digits
                         (env_of [("TABLE_NAME", "t"); ("DRY_RUN", "false")])))
           "SNS_TOPIC_ARN").
  vm_compute. reflexivity.
Defined.

(** * A failing lookup *)

Lemma for_each_app {A} (l1 l2 : list A) body w :
  for_each (app l1 l2) body w =
    bind (for_each l1 body) (fun _ => for_each l2 body) w.
Proof.
  induction l1 as [| x l1 IH].
  - simpl. unfold bind, ret. now destruct (for_each l2 body w).
  - simpl. unfold bind in *. destruct (body x w) as [t [[] | e]]; [| reflexivity].
    rewrite IH.
    destruct (for_each l1 body w) as [t1 [[] | e1]]; [| reflexivity].
    destruct (for_each l2 body w) as [t2 r2]. now rewrite app_assoc.
Qed.

(** The two nested loops are one loop over the instances of all the
    reservations. *)
Lemma for_each_flat (rs : list Reservation) (body : Instance -> M unit) w :
  for_each rs (fun res => for_each (Instances res) body) w =
    for_each (all_instances rs) body w.
Proof.
  induction rs as [| res rs IH]; [reflexivity |].
  unfold all_instances. simpl flat_map. rewrite for_each_app.
  simpl. unfold bind. now rewrite IH.
Qed.

Lemma for_each_raises {A} (l1 : list A) x l2 body w e :
  (forall y, In y l1 -> result (body y) w = Returned tt) ->
  result (body x) w = Raised e ->
  for_each (app l1 (x :: l2)) body w =
    (app (flat_map (fun y => trace (body y) w) l1) (trace (body x) w), Raised e).
Proof.
  intros H1 Hx. induction l1 as [| y l1 IH].
  - simpl. unfold bind, result, trace in *.
    destruct (body x w) as [t r]. simpl in *. now subst r.
  - simpl. unfold bind. rewrite IH by (intros z Hz; apply H1; now right).
    specialize (H1 y (or_introl eq_refl)). unfold result, trace in *.
    destruct (body y w) as [t r]. simpl in *. subst r.
    now rewrite app_assoc.
Qed.

(** X16: When the metrics request of a listed instance raises, at any hour, the
    run ends there with that exception: the instance is not stopped,
    recorded or notified, and the instances listed after it are not even
    looked up (lines 48-51; nothing catches the exception). *)
Theorem metrics_failure_skips_rest cfg w now rs l1 inst l2 e :
  local_now w (TIMEZONE cfg) = Returned now ->
  describe_instances w instance_filters = Returned rs ->
  all_instances rs = app l1 (inst :: l2) ->
  (forall y, In y l1 -> result (process_instance cfg now y) w = Returned tt) ->
  get_metric_statistics w (InstanceId inst) = Raised e ->
  lambda_handler cfg w =
    (LocalNow (TIMEZONE cfg) :: DescribeInstances instance_filters ::
       app (flat_map (fun y => trace (process_instance cfg now y) w) l1)
         [metric_call (InstanceId inst)],
     Raised e).
Proof.
  intros Hn Hd Hl H1 Hm.
  unfold lambda_handler, bind at 1, request at 1. rewrite Hn.
  unfold bind at 1, request at 1. rewrite Hd.
  unfold bind. rewrite for_each_flat, Hl.
  change (fun i : Instance => process_instance cfg now i)
    with (process_instance cfg now).
  rewrite (for_each_raises l1 inst l2 (process_instance cfg now) w e H1).
  - unfold trace. now rewrite (process_instance_raised _ _ _ _ _ Hm).
  - unfold result. now rewrite (process_instance_raised _ _ _ _ _ Hm).
Qed.

Lemma metrics_failure_skips_rest_witness :
  lambda_handler (set_dry_run false sample_config) night_failing_world =
    ([ LocalNow "Asia/Kolkata";
       DescribeInstances instance_filters;
       metric_call "i-0a1";
       StopInstances ["i-0a1"];
       put_call sample_config night_now "i-0a1" "After hours";
       publish_call sample_config "i-0a1" "After hours";
       metric_call "i-0b2" ],
     Raised (ClientError "GetMetricStatistics")).
Proof.
  rewrite (metrics_failure_skips_rest (set_dry_run false sample_config)
             night_failing_world night_now sample_reservations
             [ {| InstanceId := "i-0a1" |} ] {| InstanceId := "i-0b2" |}
             [ {| InstanceId := "i-0c3" |} ] (ClientError "GetMetricStatistics")).
  - vm_compute. reflexivity.
  - reflexivity.
  - reflexivity.
  - reflexivity.
  - intros y [<- | []]. vm_compute. reflexivity.
  - reflexivity.
Defined.

(** * Independence of the order of the instances, in completed runs *)

Lemma for_each_returned {A} (xs : list A) (body : A -> M unit) w :
  result (for_each xs body) w = Returned tt ->
  forall x, In x xs -> result (body x) w = Returned tt.
Proof.
  induction xs as [| y xs IH]; intros H x Hx; [contradiction |].
  rewrite result_for_each_cons in H.
  destruct (result (body y) w) as [[] | e] eqn:R; [| discriminate].
  destruct Hx as [<- | Hx]; [exact R | now apply IH].
Qed.

Lemma flat_map_ext_listed {A B} (f g : A -> list B) l :
  (forall x, In x l -> f x = g x) -> flat_map f l = flat_map g l.
Proof.
  induction l as [| x l IH]; intros H; [reflexivity |].
  simpl. rewrite (H x (or_introl eq_refl)), IH; [reflexivity |].
  intros y Hy. apply H. now right.
Qed.

(** An iteration that returns has sent the requests of the instance and
    every one of them was answered. *)
Lemma process_instance_completed cfg now inst w :
  result (process_instance cfg now inst) w = Returned tt ->
  process_instance cfg now inst w = (instance_calls cfg now w inst, Returned tt).
Proof.
  unfold result.
  destruct (get_metric_statistics w (InstanceId inst)) as [dps | e] eqn:Hm.
  - rewrite (process_instance_run _ _ _ _ _ Hm).
    unfold instance_calls, sample. rewrite Hm.
    destruct (evaluate (dt_hour now) (latest_average dps) (PyInt (CPU_THRESHOLD cfg)))
      as [reason |]; [| reflexivity].
    unfold stop_record_notify, bind, request, ret, put_call, publish_call.
    destruct (DRY_RUN cfg); simpl.
    + destruct (put_item w _ _) as [[] |]; simpl; [| discriminate].
      destruct (publish w _ _ _) as [[] |]; simpl; [reflexivity | discriminate].
    + destruct (stop_instances w _) as [[] |]; simpl; [| discriminate].
      destruct (put_item w _ _) as [[] |]; simpl; [| discriminate].
      destruct (publish w _ _ _) as [[] |]; simpl; [reflexivity | discriminate].
  - rewrite (process_instance_raised _ _ _ _ _ Hm). discriminate.
Qed.

(** The handler is its two first requests followed by one loop over the
    listed instances. *)
Lemma lambda_handler_loop cfg w now rs :
  local_now w (TIMEZONE cfg) = Returned now ->
  describe_instances w instance_filters = Returned rs ->
  lambda_handler cfg w =
    (LocalNow (TIMEZONE cfg) :: DescribeInstances instance_filters ::
       trace (for_each (all_instances rs) (process_instance cfg now)) w,
     match result (for_each (all_instances rs) (process_instance cfg now)) w with
     | Returned _ => Returned ok_response
     | Raised e => Raised e
     end).
Proof.
  intros Hn Hd.
  unfold lambda_handler, bind at 1, request at 1. rewrite Hn.
  unfold bind at 1, request at 1. rewrite Hd.
  unfold bind. rewrite for_each_flat.
  change (fun i : Instance => process_instance cfg now i)
    with (process_instance cfg now).
  unfold trace, result.
  destruct (for_each (all_instances rs) (process_instance cfg now) w)
    as [t [[] | e]]; simpl; [rewrite app_nil_r |]; reflexivity.
Qed.

(** A run that returns has sent, after its first two requests, the requests
    of every listed instance, in order. *)
Lemma lambda_handler_completed cfg w now rs r :
  local_now w (TIMEZONE cfg) = Returned now ->
  describe_instances w instance_filters = Returned rs ->
  result (lambda_handler cfg) w = Returned r ->
  trace (lambda_handler cfg) w =
    LocalNow (TIMEZONE cfg) :: DescribeInstances instance_filters ::
    flat_map (instance_calls cfg now w) (all_instances rs).
Proof.
  intros Hn Hd Hr. unfold result in Hr. unfold trace at 1.
  rewrite (lambda_handler_loop _ _ _ _ Hn Hd) in *. simpl in *.
  destruct (result (for_each (all_instances rs) (process_instance cfg now)) w)
    as [[] | e] eqn:Hloop; [| discriminate].
  pose proof (for_each_returned _ _ _ Hloop) as Hall.
  destruct (for_each_returns _ _ _ Hall) as [Ht _].
  rewrite Ht. do 2 f_equal.
  apply flat_map_ext_listed. intros inst Hin. unfold trace.
  now rewrite (process_instance_completed _ _ _ _ (Hall inst Hin)).
Qed.

(** C9, as amended: the decision for an instance depends only on the hour
    of the run, its own CPU sample and the threshold, in runs that
    complete. Two runs that return, with the same hour, threshold and
    samples, over instance lists that are permutations of each other,
    record the same decision for every instance, and for a listed instance
    it is the policy applied to the hour, its sample and the threshold. *)
Theorem decision_independent_of_order cfg1 cfg2 w1 w2 now1 now2 rs1 rs2 r1 r2 :
  local_now w1 (TIMEZONE cfg1) = Returned now1 ->
  local_now w2 (TIMEZONE cfg2) = Returned now2 ->
  describe_instances w1 instance_filters = Returned rs1 ->
  describe_instances w2 instance_filters = Returned rs2 ->
  result (lambda_handler cfg1) w1 = Returned r1 ->
  result (lambda_handler cfg2) w2 = Returned r2 ->
  dt_hour now1 = dt_hour now2 ->
  CPU_THRESHOLD cfg1 = CPU_THRESHOLD cfg2 ->
  (forall id, sample w1 id = sample w2 id) ->
  Permutation (all_instances rs1) (all_instances rs2) ->
  forall id,
    recorded_reason (trace (lambda_handler cfg1) w1) id =
      recorded_reason (trace (lambda_handler cfg2) w2) id /\
    (listed id (all_instances rs1) = true ->
     recorded_reason (trace (lambda_handler cfg1) w1) id =
       evaluate (dt_hour now1) (sample w1 id) (PyInt (CPU_THRESHOLD cfg1))).
Proof.
  intros Hn1 Hn2 Hd1 Hd2 Hr1 Hr2 Hh Ht Hc Hp id.
  assert (R : forall cfg w now rs r,
             local_now w (TIMEZONE cfg) = Returned now ->
             describe_instances w instance_filters = Returned rs ->
             result (lambda_handler cfg) w = Returned r ->
             recorded_reason (trace (lambda_handler cfg) w) id =
               if listed id (all_instances rs)
               then evaluate (dt_hour now) (sample w id) (PyInt (CPU_THRESHOLD cfg))
               else None).
  { intros cfg w now rs r Hn Hd Hr.
    rewrite (lambda_handler_completed _ _ _ _ _ Hn Hd Hr).
    rewrite <- recorded_reason_calls. reflexivity. }
  rewrite (R _ _ _ _ _ Hn1 Hd1 Hr1), (R _ _ _ _ _ Hn2 Hd2 Hr2).
  rewrite (listed_perm id _ _ Hp), Hh, Ht, Hc.
  split; [reflexivity |].
  intros Hl. now rewrite Hl.
Qed.

Lemma decision_independent_of_order_witness :
  recorded_reason (trace (lambda_handler sample_config) sample_world) "i-0a1" =
    recorded_reason (trace (lambda_handler sample_config) permuted_world) "i-0a1" /\
  recorded_reason (trace (lambda_handler sample_config) permuted_world) "i-0a1" =
    Some "Low CPU: 3.2%".
Proof.
  split; [| vm_compute; reflexivity].
  refine (proj1 (decision_independent_of_order sample_config sample_config
                   sample_world permuted_world sample_now sample_now
                   sample_reservations permuted_reservations
                   ok_response ok_response
                   eq_refl eq_refl eq_refl eq_refl _ _
                   eq_refl eq_refl (fun _ => eq_refl) _ "i-0a1")).
  - vm_compute. reflexivity.
  - vm_compute. reflexivity.
  - apply Permutation_sym.
    exact (Permutation_cons_append
             [ {| InstanceId := "i-0a1" |}; {| InstanceId := "i-0b2" |} ]
             {| InstanceId := "i-0c3" |}).
Defined.

(** In runs that do not complete the order matters: with the same hour,
    samples and threshold and the same instances in two orders, a stop
    request that raises for one instance ends the first run before the
    third instance is evaluated, while the second run has stopped and
    recorded that instance before it reaches the failing one. *)
Lemma decision_changes_with_order_when_stop_raises :
  Permutation (all_instances sample_reservations) (all_instances permuted_reservations) /\
  local_now stop_failing_permuted_world = local_now stop_failing_world /\
  get_metric_statistics stop_failing_permuted_world =
    get_metric_statistics stop_failing_world /\
  recorded_reason (trace (lambda_handler sample_config) stop_failing_world) "i-0c3" =
    None /\
  recorded_reason (trace (lambda_handler sample_config) stop_failing_permuted_world)
    "i-0c3" = Some "After hours".
Proof.
  split.
  - apply Permutation_sym.
    exact (Permutation_cons_append
             [ {| InstanceId := "i-0a1" |}; {| InstanceId := "i-0b2" |} ]
             {| InstanceId := "i-0c3" |}).
  - split; [reflexivity |]. split; [reflexivity |].
    split; vm_compute; reflexivity.
Qed.
